(** * Daily selfie check-in: local store, export, statistics and sync

    A shallow embedding of the persistence layer of the check-in
    application:

    - [StorageService] (the local store: an IndexedDB object store of
      images and a localStorage list of check-in records),
    - [ApiService] and [HybridStorageService] (src/lib/api.ts),
    - the statistics of [FirebaseStorageService] and
      [SupabaseStorageService].

    The browser is modelled by a [Platform]: every call that the code
    makes into it (the clock, the random generator, an IndexedDB
    request, a localStorage write, a network request) consumes one tick
    of a counter and reads its outcome from the platform at that tick.
    A run of the code is therefore a function of the platform and of
    the store it starts in.  Every request is also appended to a trace,
    so that the order of the effects of a run can be stated.

    Not modelled: console output, the loading of modules, the user
    interface.  One operation runs at a time, as the application
    assumes. *)

From Stdlib Require Import ZArith QArith Qabs.
From stdpp Require Import gmap strings list fin_maps pretty.

Set Warnings "-register-all".
Close Scope Q_scope.
Open Scope string_scope.
Open Scope list_scope.
Open Scope Z_scope.

(* ===================================================================== *)
(** * Data model *)
(* ===================================================================== *)

(** A thrown JavaScript value.  Everything the modelled code throws or
    catches is an [Error] (or a [DOMException]); [err_cause] is the
    [cause] option of the [Error] constructor. *)
Inductive JsError : Type :=
  MkError (err_name : string) (err_message : string) (err_cause : option JsError).

Definition err_message_of (e : JsError) : string :=
  match e with MkError _ m _ => m end.

Definition err_cause_of (e : JsError) : option JsError :=
  match e with MkError _ _ c => c end.

(** [new Error(message)] *)
Definition new_Error (message : string) : JsError := MkError "Error" message None.

(** A [Blob]: a media type and a byte sequence. *)
Record Blob : Type := mkBlob {
  blob_type : string;
  blob_bytes : list Byte.byte
}.

(** What a field declared [number] holds at run time: a finite number
    (embedded in the rationals, zero standing for +0), -0, NaN, an
    infinity, or [null], which is what a field read back from JSON
    holds when the number written was not finite. *)
Inductive JsNumber : Type :=
  | Num (q : Q)
  | MinusZero
  | NaN
  | Infinity
  | MinusInfinity
  | Null.

Bind Scope Q_scope with JsNumber.

(** A time value, as [Date.now()] returns it, is a finite number. *)
Definition of_time (t : Z) : JsNumber := Num (inject_Z t).

Coercion Num : Q >-> JsNumber.
Coercion of_time : Z >-> JsNumber.

(** [JSON.parse(JSON.stringify(x))] for a number: a finite number comes
    back as it was, -0 as 0, and NaN and the infinities, which are
    written as [null], as [null]. *)
Definition json_number (x : JsNumber) : JsNumber :=
  match x with
  | Num q => Num q
  | MinusZero => Num 0
  | NaN | Infinity | MinusInfinity | Null => Null
  end.

(** The largest time value of a [Date]. *)
Definition maxTime : Z := 8640000000000000.

(** The time value of [new Date(x)]: [None] for an Invalid Date.  A
    finite number within the range of time values is truncated towards
    zero; [null] and -0 give the epoch; everything else is invalid. *)
Definition new_Date (x : JsNumber) : option Z :=
  match x with
  | Num q =>
      if Qle_bool (Qabs q) (inject_Z maxTime)
      then Some (Z.quot (Qnum q) (Zpos (Qden q)))
      else None
  | MinusZero | Null => Some 0
  | NaN | Infinity | MinusInfinity => None
  end.

(** [d >= t] for a [Date] [d] and a valid [Date] of time value [t]: an
    Invalid Date compares false. *)
Definition date_ge (d : option Z) (t : Z) : bool :=
  match d with
  | Some x => t <=? x
  | None => false
  end.

(** [CheckinData['location']] *)
Record Location : Type := mkLocation {
  latitude : JsNumber;
  longitude : JsNumber;
  accuracy : JsNumber;
  loc_timestamp : JsNumber
}.

(** [interface CheckinData] *)
Record CheckinData : Type := mkCheckin {
  ck_id : string;
  ck_userCode : string;
  ck_timestamp : JsNumber;
  ck_location : Location;
  ck_imageId : string;
  ck_submissionId : string
}.

(** [Omit<CheckinData, 'id'>] *)
Record CheckinInput : Type := mkCheckinInput {
  in_userCode : string;
  in_timestamp : JsNumber;
  in_location : Location;
  in_imageId : string;
  in_submissionId : string
}.

(** [JSON.parse(JSON.stringify(x))] for a location, a record and a
    list of records: strings come back as they were, numbers as
    [json_number] says. *)
Definition json_location (l : Location) : Location :=
  {| latitude := json_number (latitude l);
     longitude := json_number (longitude l);
     accuracy := json_number (accuracy l);
     loc_timestamp := json_number (loc_timestamp l) |}.

Definition json_checkin (c : CheckinData) : CheckinData :=
  {| ck_id := ck_id c;
     ck_userCode := ck_userCode c;
     ck_timestamp := json_number (ck_timestamp c);
     ck_location := json_location (ck_location c);
     ck_imageId := ck_imageId c;
     ck_submissionId := ck_submissionId c |}.

Definition through_JSON (l : list CheckinData) : list CheckinData :=
  json_checkin <$> l.

(** [interface StoredImage] *)
Record StoredImage : Type := mkStoredImage {
  img_id : string;
  img_blob : Blob;
  img_timestamp : Z
}.

(** JSON bodies of the backend's replies, as far as the code inspects
    them: [null], another falsy value, or a value with the optional
    properties [id], [imageUrl] and [error]. *)
Inductive Json : Type :=
  | JNull
  | JFalsy
  | JObject (j_id j_imageUrl j_error : option string).

(** Outcome of one [fetch] followed by [response.json()]. *)
Inductive FetchOutcome : Type :=
  | FetchThrows (e : JsError)
  | FetchReplies (ok : bool) (result : Json).

(** A document of the Firestore collection [checkins]. *)
Record FirebaseCheckin : Type := mkFirebaseCheckin {
  fb_id : string;
  fb_userCode : string;
  fb_submissionId : string;
  fb_latitude : JsNumber;
  fb_longitude : JsNumber;
  fb_accuracy : JsNumber;
  fb_imageUrl : option string;
  fb_timestamp : JsNumber
}.

(** Outcome of one Firestore [getDocs]. *)
Inductive FirestoreOutcome : Type :=
  | GetDocsThrows (e : JsError)
  | GetDocsReturns (docs : list FirebaseCheckin).

(** A row of [select('user_code, created_at')] on the Supabase table. *)
Record SupabaseRow : Type := mkSupabaseRow {
  sb_user_code : string;
  sb_created_at : option string
}.

(** Outcome of one Supabase query: the awaited [{ data, error }]. *)
Record SupabaseOutcome : Type := mkSupabaseOutcome {
  sb_data : option (list SupabaseRow);
  sb_error : option JsError
}.

(** The browser and the network, seen from the code. *)
Record Platform : Type := mkPlatform {
  (** [Date.now()] and [new Date()] at a tick *)
  clock : nat -> Z;
  (** [Math.random().toString(36)] at a tick *)
  random36 : nat -> string;
  (** the error, if any, of the IndexedDB request or localStorage write
      issued at a tick *)
  fault : nat -> option JsError;
  (** the outcome of the [fetch] issued at a tick *)
  fetched : nat -> FetchOutcome;
  (** the outcome of the Firestore query issued at a tick *)
  firestore : nat -> FirestoreOutcome;
  (** the outcome of the Supabase query issued at a tick *)
  supabase : nat -> SupabaseOutcome;
  (** the time value of a [Date] after [setHours(0, 0, 0, 0)]: the
      local midnight that began its day, in the time zone of the
      device *)
  startOfLocalDay : Z -> Z;
  (** the time value of a [Date] [d] after [setDate(d.getDate() - 7)]:
      the same local time of day seven calendar days earlier *)
  sevenDaysEarlier : Z -> Z;
  (** [FileReader.readAsDataURL] *)
  readAsDataURL : Blob -> string;
  (** the size in bytes of [JSON.stringify] of a list of records *)
  jsonByteLength : list CheckinData -> Z;
  (** [Date.prototype.toISOString] of a time value *)
  toISOString : Z -> string
}.

(** What the code asked of the platform, in order. *)
Inductive Event : Type :=
  | IdbOpen
  | IdbAdd (key : string)
  | IdbGet (key : string)
  | IdbClear
  | IdbCount
  | LsSetItem
  | LsRemoveItem
  | HttpGet (path : string)
  | HttpPost (path : string)
  | FirestoreGetDocs
  | SupabaseSelect.

(** The state of one browser context.  [selfie_checkins] is the
    localStorage item of that name: [None] when the key is absent,
    otherwise the array whose [JSON.stringify] is the stored text;
    reading the item back gives that array [through_JSON]. *)
Record World : Type := mkWorld {
  tick : nat;
  db : bool;
  images : gmap string StoredImage;
  selfie_checkins : option (list CheckinData);
  trace : list Event
}.

(* ===================================================================== *)
(** * Promises and exceptions: a state and error monad *)
(* ===================================================================== *)

Inductive Result (A : Type) : Type :=
  | Ok (a : A) (w : World)
  | Err (e : JsError) (w : World).
Arguments Ok {A} a w.
Arguments Err {A} e w.

Definition M (A : Type) : Type := World -> Result A.

Definition ret {A} (a : A) : M A := fun w => Ok a w.

Definition throw {A} (e : JsError) : M A := fun w => Err e w.

Definition bind {A B} (m : M A) (k : A -> M B) : M B :=
  fun w => match m w with
           | Ok a w' => k a w'
           | Err e w' => Err e w'
           end.

(** [try { m } catch (error) { h error }] *)
Definition try_catch {A} (m : M A) (h : JsError -> M A) : M A :=
  fun w => match m w with
           | Ok a w' => Ok a w'
           | Err e w' => h e w'
           end.

Notation "'let*' x ':=' m 'in' k" := (bind m (fun x => k))
  (at level 10, x name, m at level 100, k at level 200).
Notation "'do' m 'then' k" := (bind m (fun _ => k))
  (at level 10, m at level 100, k at level 200).

Definition world_of {A} (r : Result A) : World :=
  match r with Ok _ w => w | Err _ w => w end.

(** One call into the platform has been made. *)
Definition advance (w : World) : World :=
  {| tick := S (tick w); db := db w; images := images w;
     selfie_checkins := selfie_checkins w; trace := trace w |}.

(** The call just made was the request [ev]. *)
Definition note (ev : Event) (w : World) : World :=
  {| tick := tick w; db := db w; images := images w;
     selfie_checkins := selfie_checkins w; trace := trace w ++ [ev] |}.

Definition set_db (b : bool) (w : World) : World :=
  {| tick := tick w; db := b; images := images w;
     selfie_checkins := selfie_checkins w; trace := trace w |}.

Definition set_images (m : gmap string StoredImage) (w : World) : World :=
  {| tick := tick w; db := db w; images := m;
     selfie_checkins := selfie_checkins w; trace := trace w |}.

Definition set_checkins (c : option (list CheckinData)) (w : World) : World :=
  {| tick := tick w; db := db w; images := images w;
     selfie_checkins := c; trace := trace w |}.

Section Program.

Variable env : Platform.

(* ===================================================================== *)
(** * Platform primitives *)
(* ===================================================================== *)

(** [Date.now()] *)
Definition Date_now : M Z :=
  fun w => Ok (clock env (tick w)) (advance w).

(** [Math.random().toString(36)] *)
Definition Math_random36 : M string :=
  fun w => Ok (random36 env (tick w)) (advance w).

(** An IndexedDB request or a localStorage write: it is recorded, then
    either fails with the platform's error or takes effect. *)
Definition request (ev : Event) (effect : World -> World) : M unit :=
  fun w => match fault env (tick w) with
           | Some e => Err e (advance (note ev w))
           | None => Ok tt (effect (advance (note ev w)))
           end.

(** [String.prototype.substr(start, length)] *)
Definition substr (start len : nat) (s : string) : string :=
  String.substring start len s.

(* ===================================================================== *)
(** * StorageService *)
(* ===================================================================== *)

Definition initDB : M unit := request IdbOpen (set_db true).

(** [if (!this.db) await this.initDB();] *)
Definition ensureDB : M unit :=
  fun w => if db w then Ok tt w else initDB w.

(** [store.add(imageData)]: fails with a ConstraintError when the key
    is already present. *)
Definition idb_add (imageData : StoredImage) : M unit :=
  fun w => match request (IdbAdd (img_id imageData)) (fun w' => w') w with
           | Err e w' => Err e w'
           | Ok _ w' =>
               match images w' !! img_id imageData with
               | Some _ =>
                   Err (MkError "ConstraintError" "Key already exists in the object store." None) w'
               | None => Ok tt (set_images (<[img_id imageData := imageData]> (images w')) w')
               end
           end.

Definition storeImage (blob : Blob) : M string :=
  do ensureDB then
  let* t := Date_now in
  let* r := Math_random36 in
  let imageId := "img_" +:+ pretty t +:+ "_" +:+ substr 2 9 r in
  let* t' := Date_now in
  do idb_add {| img_id := imageId; img_blob := blob; img_timestamp := t' |} then
  ret imageId.

Definition getImage (imageId : string) : M (option Blob) :=
  do ensureDB then
  do request (IdbGet imageId) (fun w => w) then
  fun w => Ok (img_blob <$> images w !! imageId) w.

Definition getAllCheckins (w : World) : list CheckinData :=
  match selfie_checkins w with
  | Some stored => through_JSON stored
  | None => []
  end.

Definition with_id (checkinId : string) (data : CheckinInput) : CheckinData :=
  {| ck_id := checkinId;
     ck_userCode := in_userCode data;
     ck_timestamp := in_timestamp data;
     ck_location := in_location data;
     ck_imageId := in_imageId data;
     ck_submissionId := in_submissionId data |}.

Definition storeCheckin (data : CheckinInput) : M string :=
  let* t := Date_now in
  let* r := Math_random36 in
  let checkinId := "checkin_" +:+ pretty t +:+ "_" +:+ substr 2 9 r in
  let checkinData := with_id checkinId data in
  fun w =>
    let existingData := getAllCheckins w in
    match request LsSetItem (set_checkins (Some (existingData ++ [checkinData]))) w with
    | Ok _ w' => Ok checkinId w'
    | Err e w' => Err e w'
    end.

Definition getCheckin (id : string) (w : World) : option CheckinData :=
  List.find (fun checkin => bool_decide (ck_id checkin = id)) (getAllCheckins w).

(** The [try] block of [storeCompleteCheckin]. *)
Definition storeCompleteCheckin_try (userCode : string) (location : Location)
    (imageBlob : Blob) (submissionId : string) : M CheckinData :=
  let* imageId := storeImage imageBlob in
  let* t := Date_now in
  let* checkinId := storeCheckin {| in_userCode := userCode; in_timestamp := t;
                                    in_location := location; in_imageId := imageId;
                                    in_submissionId := submissionId |} in
  let* t' := Date_now in
  ret {| ck_id := checkinId; ck_userCode := userCode; ck_timestamp := t';
         ck_location := location; ck_imageId := imageId;
         ck_submissionId := submissionId |}.

Definition storeCompleteCheckin (userCode : string) (location : Location)
    (imageBlob : Blob) (submissionId : string) : M CheckinData :=
  try_catch
    (storeCompleteCheckin_try userCode location imageBlob submissionId)
    (fun _ => throw (new_Error "Failed to store check-in data")).

(** The snapshot returned by [exportData]. *)
Record Snapshot : Type := mkSnapshot {
  snap_checkins : list CheckinData;
  snap_images : gmap string string
}.

(** The body of [for (const checkin of checkins)] in [exportData]. *)
Fixpoint export_loop (checkins : list CheckinData) (images : gmap string string)
    : M (gmap string string) :=
  match checkins with
  | [] => ret images
  | checkin :: rest =>
      let* blob := getImage (ck_imageId checkin) in
      match blob with
      | Some b =>
          let base64 := readAsDataURL env b in
          export_loop rest (<[ck_imageId checkin := base64]> images)
      | None => export_loop rest images
      end
  end.

Definition exportData : M Snapshot :=
  fun w =>
    let checkins := getAllCheckins w in
    (let* images := export_loop checkins ∅ in
     ret {| snap_checkins := checkins; snap_images := images |}) w.

(** [localStorage.removeItem('selfie_checkins')] *)
Definition ls_removeItem : M unit :=
  fun w => Ok tt (set_checkins None (advance (note LsRemoveItem w))).

Definition clearAllData : M unit :=
  do ls_removeItem then
  do ensureDB then
  request IdbClear (set_images ∅).

(** [(num / den).toFixed(1)] for integers [0 <= num] and [0 < den]
    whose quotient is computed exactly: the nearest multiple of one
    tenth, the larger one on a tie. *)
Definition toFixed1 (num den : Z) : string :=
  let n := (20 * num + den) / (2 * den) in
  pretty (n / 10) +:+ "." +:+ pretty (n mod 10).

Definition estimateStorageSize (w : World) : string :=
  let localStorageSize :=
    match selfie_checkins w with
    | Some stored => jsonByteLength env stored
    | None => 0
    end in
  let estimatedSize :=
    localStorageSize + Z.of_nat (length (getAllCheckins w)) * 500 * 1024 in
  if estimatedSize <? 1024 * 1024
  then toFixed1 estimatedSize 1024 +:+ " KB"
  else toFixed1 estimatedSize (1024 * 1024) +:+ " MB".

Record StorageStats : Type := mkStorageStats {
  totalCheckins : nat;
  totalImages : nat;
  storageSize : string
}.

Definition getStorageStats : M StorageStats :=
  fun w =>
    let checkins := getAllCheckins w in
    (do ensureDB then
     do request IdbCount (fun w' => w') then
     fun w' => Ok {| totalCheckins := length checkins;
                     totalImages := size (images w');
                     storageSize := estimateStorageSize w' |} w') w.

(* ===================================================================== *)
(** * ApiService and HybridStorageService (src/lib/api.ts) *)
(* ===================================================================== *)

(** [interface ApiCheckinData] *)
Record ApiCheckinData : Type := mkApiCheckinData {
  api_userCode : string;
  api_timestamp : Z;
  api_location : Location;
  api_submissionId : string
}.

(** [interface ApiResponse<T>] *)
Record ApiResponse (T : Type) : Type := mkApiResponse {
  success : bool;
  data : option T;
  error : option string
}.
Arguments mkApiResponse {T} _ _ _.
Arguments success {T} _.
Arguments data {T} _.
Arguments error {T} _.

(** The [data] of [submitCompleteCheckin]: a reply passed through by a
    type cast, or the assembled [{ checkinId, imageUrl }]. *)
Inductive CompleteData : Type :=
  | PassedThrough (result : Json)
  | Assembled (checkinId imageUrl : option string).

(** One [fetch], with the JSON body of its response. *)
Definition fetch (ev : Event) : M (bool * Json) :=
  fun w => match fetched env (tick w) with
           | FetchThrows e => Err e (advance (note ev w))
           | FetchReplies ok result => Ok (ok, result) (advance (note ev w))
           end.

(** [result.error]: reading a property of [null] throws. *)
Definition result_error (result : Json) : M (option string) :=
  match result with
  | JNull => throw (MkError "TypeError" "Cannot read properties of null (reading 'error')" None)
  | JFalsy => ret None
  | JObject _ _ e => ret e
  end.

(** [o || d] on an optional string *)
Definition or_else (o : option string) (d : string) : string :=
  match o with
  | Some s => if bool_decide (s = "") then d else s
  | None => d
  end.

(** [!x] on an optional JSON value *)
Definition falsy (x : option Json) : bool :=
  match x with
  | Some (JObject _ _ _) => false
  | _ => true
  end.

Definition json_id (x : option Json) : option string :=
  match x with Some (JObject i _ _) => i | _ => None end.

Definition json_imageUrl (x : option Json) : option string :=
  match x with Some (JObject _ u _) => u | _ => None end.

Definition uploadImage (imageBlob : Blob) (checkinId : option string)
    : M (ApiResponse Json) :=
  try_catch
    (let* response := fetch (HttpPost "/upload-image") in
     let result := response.2 in
     if negb response.1
     then let* e := result_error result in
          throw (new_Error (or_else e "Upload failed"))
     else ret (mkApiResponse true (Some result) None))
    (fun error => ret (mkApiResponse false None (Some (err_message_of error)))).

Definition submitCheckin (data : ApiCheckinData) : M (ApiResponse Json) :=
  try_catch
    (let* response := fetch (HttpPost "/checkins") in
     let result := response.2 in
     if negb response.1
     then let* e := result_error result in
          throw (new_Error (or_else e "Submission failed"))
     else ret (mkApiResponse true (Some result) None))
    (fun error => ret (mkApiResponse false None (Some (err_message_of error)))).

(** [r as ApiResponse<{ checkinId: string; imageUrl: string }>] *)
Definition cast (r : ApiResponse Json) : ApiResponse CompleteData :=
  mkApiResponse (success r) (PassedThrough <$> data r) (error r).

Definition submitCompleteCheckin (checkinData : ApiCheckinData) (imageBlob : Blob)
    : M (ApiResponse CompleteData) :=
  try_catch
    (let* checkinResponse := submitCheckin checkinData in
     if negb (success checkinResponse) || falsy (data checkinResponse)
     then ret (cast checkinResponse)
     else
       let checkinId := json_id (data checkinResponse) in
       let* imageResponse := uploadImage imageBlob checkinId in
       if negb (success imageResponse) || falsy (data imageResponse)
       then ret (cast imageResponse)
       else ret (mkApiResponse true
                   (Some (Assembled checkinId (json_imageUrl (data imageResponse))))
                   None))
    (fun error => ret (mkApiResponse false None (Some (err_message_of error)))).

Definition healthCheck : M bool :=
  try_catch
    (let* response := fetch (HttpGet "/health") in
     ret response.1)
    (fun _ => ret false).

(** The value [storeCheckinWithSync] resolves to. *)
Record SyncResult : Type := mkSyncResult {
  localId : string;
  synced : bool;
  sync_error : option string
}.

Definition storeCheckinWithSync (userCode : string) (location : Location)
    (imageBlob : Blob) (submissionId : string) : M SyncResult :=
  try_catch
    (let* localCheckin := storeCompleteCheckin userCode location imageBlob submissionId in
     let* apiHealthy := healthCheck in
     if apiHealthy
     then
       let* t := Date_now in
       let* apiResponse :=
         submitCompleteCheckin
           {| api_userCode := userCode; api_timestamp := t;
              api_location := location; api_submissionId := submissionId |}
           imageBlob in
       if success apiResponse
       then ret {| localId := ck_id localCheckin; synced := true; sync_error := None |}
       else ret {| localId := ck_id localCheckin; synced := false;
                   sync_error := error apiResponse |}
     else ret {| localId := ck_id localCheckin; synced := false;
                 sync_error := Some "Server not available" |})
    (fun _ => throw (new_Error "Failed to store checkin locally")).

End Program.

(* ===================================================================== *)
(** * Remote statistics *)
(* ===================================================================== *)

(** The value both adapters' [getStats] resolve to. *)
Record RemoteStats : Type := mkRemoteStats {
  rs_totalCheckins : nat;
  rs_uniqueUsers : nat;
  rs_todayCheckins : nat;
  rs_thisWeekCheckins : nat
}.

Definition msPerDay : Z := 24 * 60 * 60 * 1000.

(** [new Set(codes).size] *)
Definition distinct (codes : list string) : nat :=
  size (list_to_set codes : gset string).

(** FirebaseStorageService (src/lib/firebase-storage.ts) *)
Module Firebase.
Section Program.

Variable env : Platform.

(** [getDocs(q)] *)
Definition getDocs : M (list FirebaseCheckin) :=
  fun w => match firestore env (tick w) with
           | GetDocsThrows e => Err e (advance (note FirestoreGetDocs w))
           | GetDocsReturns docs => Ok docs (advance (note FirestoreGetDocs w))
           end.

Definition getAllCheckins : M (list FirebaseCheckin) :=
  try_catch getDocs (fun error => throw error).

(** [d.setHours(0, 0, 0, 0)] on the [Date] of time value [t] *)
Definition setHours0 (t : Z) : Z := startOfLocalDay env t.

(** [d.setDate(d.getDate() - 7)] on the [Date] of time value [t] *)
Definition setDateMinus7 (t : Z) : Z := sevenDaysEarlier env t.

Definition getStats : M RemoteStats :=
  try_catch
    (let* allCheckins := getAllCheckins in
     let* now := Date_now env in
     let today := setHours0 now in
     let* now' := Date_now env in
     let weekAgo := setDateMinus7 now' in
     let totalCheckins := length allCheckins in
     let uniqueUsers := distinct (fb_userCode <$> allCheckins) in
     let todayCheckins :=
       length (List.filter (fun c =>
                 let checkinDate := new_Date (fb_timestamp c) in
                 date_ge checkinDate today) allCheckins) in
     let thisWeekCheckins :=
       length (List.filter (fun c =>
                 let checkinDate := new_Date (fb_timestamp c) in
                 date_ge checkinDate weekAgo) allCheckins) in
     ret {| rs_totalCheckins := totalCheckins;
            rs_uniqueUsers := uniqueUsers;
            rs_todayCheckins := todayCheckins;
            rs_thisWeekCheckins := thisWeekCheckins |})
    (fun _ => ret {| rs_totalCheckins := 0; rs_uniqueUsers := 0;
                     rs_todayCheckins := 0; rs_thisWeekCheckins := 0 |}).

End Program.
End Firebase.

(** SupabaseStorageService (src/lib/supabase-storage.ts) *)
Module Supabase.
Section Program.

Variable env : Platform.

(** [await supabase.from('checkins').select('user_code, created_at')] *)
Definition select : M SupabaseOutcome :=
  fun w => Ok (supabase env (tick w)) (advance (note SupabaseSelect w)).

Definition letter_T : Ascii.ascii := Ascii.ascii_of_nat 84.

(** [s.split('T')[0]] *)
Fixpoint split_T_0 (s : string) : string :=
  match s with
  | EmptyString => EmptyString
  | String a rest =>
      if Ascii.eqb a letter_T then EmptyString else String a (split_T_0 rest)
  end.

(** [rows.filter(c => p(c.created_at)).length], where reading a method
    of a missing [created_at] throws. *)
Fixpoint count_created (p : string -> bool) (rows : list SupabaseRow) : M nat :=
  match rows with
  | [] => ret 0%nat
  | c :: rest =>
      match sb_created_at c with
      | None => throw (MkError "TypeError" "Cannot read properties of null" None)
      | Some created_at =>
          let* n := count_created p rest in
          ret (if p created_at then S n else n)
      end
  end.

Definition getStats : M RemoteStats :=
  try_catch
    (let* reply := select in
     match sb_error reply with
     | Some error => throw error
     | None =>
         let* now := Date_now env in
         let today := split_T_0 (toISOString env now) in
         let* now' := Date_now env in
         let weekAgo := toISOString env (now' - 7 * 24 * 60 * 60 * 1000) in
         match sb_data reply with
         | None => throw (MkError "TypeError" "Cannot read properties of null" None)
         | Some allCheckins =>
             let totalCheckins := length allCheckins in
             let uniqueUsers := distinct (sb_user_code <$> allCheckins) in
             let* todayCheckins :=
               count_created (fun created_at => String.prefix today created_at)
                             allCheckins in
             let* thisWeekCheckins :=
               count_created (fun created_at => String.leb weekAgo created_at)
                             allCheckins in
             ret {| rs_totalCheckins := totalCheckins;
                    rs_uniqueUsers := uniqueUsers;
                    rs_todayCheckins := todayCheckins;
                    rs_thisWeekCheckins := thisWeekCheckins |}
         end
     end)
    (fun _ => ret {| rs_totalCheckins := 0; rs_uniqueUsers := 0;
                     rs_todayCheckins := 0; rs_thisWeekCheckins := 0 |}).

End Program.
End Supabase.

(* ===================================================================== *)
(** * Vocabulary of the specification *)
(* ===================================================================== *)

(** A number within [lo, hi]; what is not a number is in no range. *)
Definition within (lo hi : Q) (x : JsNumber) : bool :=
  match x with
  | Num q => Qle_bool lo q && Qle_bool q hi
  | MinusZero => Qle_bool lo 0 && Qle_bool 0 hi
  | _ => false
  end.

(** A number that is at least [lo]. *)
Definition at_least (lo : Q) (x : JsNumber) : bool :=
  match x with
  | Num q => Qle_bool lo q
  | MinusZero => Qle_bool lo 0
  | Infinity => true
  | _ => false
  end.

(** The range constraints of a LocationReading. *)
Definition valid_location (l : Location) : bool :=
  within (-90) 90 (latitude l)
  && within (-180) 180 (longitude l)
  && at_least 0 (accuracy l).

(** A number that JSON hands back as it was: a finite number other
    than -0. *)
Definition plain (x : JsNumber) : bool :=
  match x with
  | Num _ => true
  | _ => false
  end.

Definition plain_location (l : Location) : bool :=
  plain (latitude l) && plain (longitude l) && plain (accuracy l)
  && plain (loc_timestamp l).

(** An input of [storeCheckin] all of whose numbers are plain. *)
Definition plain_input (data : CheckinInput) : bool :=
  plain (in_timestamp data) && plain_location (in_location data).

(** A submission the specification calls well formed. *)
Definition valid_input (userCode : string) (l : Location) : bool :=
  negb (bool_decide (userCode = "")) && valid_location l.

(** The requests that persist something: a blob write or a metadata
    write. *)
Definition is_persistence (ev : Event) : bool :=
  match ev with
  | IdbAdd _ | LsSetItem => true
  | _ => false
  end.

Definition persistence_attempts (t : list Event) : list Event :=
  List.filter is_persistence t.

(** The requests that leave the device. *)
Definition is_remote (ev : Event) : bool :=
  match ev with
  | HttpGet _ | HttpPost _ | FirestoreGetDocs | SupabaseSelect => true
  | _ => false
  end.

(** A run that is rejected before it persists anything. *)
Definition rejected_before_persistence {A} (w : World) (r : Result A) : Prop :=
  exists e w', r = Err e w'
    /\ persistence_attempts (trace w') = persistence_attempts (trace w)
    /\ images w' = images w
    /\ selfie_checkins w' = selfie_checkins w.

(** A thrown error that carries the fault it wraps. *)
Definition preserves_cause (thrown original : JsError) : Prop :=
  thrown = original \/ err_cause_of thrown = Some original.

(** A store in which some record's image reference resolves to no
    blob. *)
Definition has_missing_blob (w : World) : Prop :=
  exists r, In r (getAllCheckins w) /\ images w !! ck_imageId r = None.

(** A request that did not succeed: the network failed or the reply
    was not ok. *)
Definition request_failed (o : FetchOutcome) : bool :=
  match o with
  | FetchThrows _ => true
  | FetchReplies ok _ => negb ok
  end.

(** Whether the reply to the insert makes the code go on to the
    upload. *)
Definition upload_attempted (o : FetchOutcome) : bool :=
  match o with
  | FetchReplies true (JObject _ _ _) => true
  | _ => false
  end.

(** A remote failure during the synchronisation that starts in [w]:
    the backend is unreachable, the insert fails, or the upload is
    attempted and fails. *)
Definition remote_failure (env : Platform) (w : World) : bool :=
  request_failed (fetched env (tick w))
  || request_failed (fetched env (2 + tick w))
  || (upload_attempted (fetched env (2 + tick w))
      && request_failed (fetched env (3 + tick w))).

(** A document created within the local calendar day that contains
    [now]: its timestamp is a valid date, and the day of that date
    began at the same local midnight as the day of [now].  (The
    platform's [setHours(0, 0, 0, 0)] keeps the local calendar date of
    a moment and resets its time of day, so two moments lie in the
    same local calendar day exactly when it sends them to the same
    moment.) *)
Definition created_today (env : Platform) (now : Z) (c : FirebaseCheckin) : bool :=
  match new_Date (fb_timestamp c) with
  | Some t => startOfLocalDay env t =? startOfLocalDay env now
  | None => false
  end.

(** A document that is not stamped in a later day than the day of
    [now]. *)
Definition not_after_today (env : Platform) (now : Z) (c : FirebaseCheckin) : bool :=
  match new_Date (fb_timestamp c) with
  | Some t => startOfLocalDay env t <=? startOfLocalDay env now
  | None => true
  end.

(** The number of documents created within the local calendar day
    that contains [now]. *)
Definition created_today_count (env : Platform) (now : Z)
    (docs : list FirebaseCheckin) : nat :=
  length (List.filter (created_today env now) docs).

(** What the arithmetic of days needs of a time zone: the start of a
    day is not after any moment of the day, the day that starts at a
    local midnight is the day of that midnight, and later moments lie
    in the same or in later days. *)
Record LocalDays (env : Platform) : Prop := mkLocalDays {
  day_starts_before : forall t, startOfLocalDay env t <= t;
  day_start_fixed : forall t,
    startOfLocalDay env (startOfLocalDay env t) = startOfLocalDay env t;
  day_start_monotone : forall s t,
    s <= t -> startOfLocalDay env s <= startOfLocalDay env t
}.

Definition zero_stats : RemoteStats :=
  {| rs_totalCheckins := 0; rs_uniqueUsers := 0;
     rs_todayCheckins := 0; rs_thisWeekCheckins := 0 |}.

(** The image key and the record key that a submission starting at
    tick [n] (once the database is open) draws from the clock and the
    random generator. *)
Definition image_key (env : Platform) (n : nat) : string :=
  "img_" +:+ pretty (clock env n) +:+ "_" +:+ substr 2 9 (random36 env (1 + n)).

Definition checkin_key (env : Platform) (n : nat) : string :=
  "checkin_" +:+ pretty (clock env (5 + n)) +:+ "_" +:+ substr 2 9 (random36 env (6 + n)).

(** A platform that fails no storage request from the present tick
    on. *)
Definition storage_sound (env : Platform) (w : World) : Prop :=
  forall n, (tick w <= n)%nat -> fault env n = None.

(** The image map that the export loop builds from the records
    [checkins] over the blobs [stored], starting from [acc]. *)
Definition exported (env : Platform) (stored : gmap string StoredImage)
    (checkins : list CheckinData) (acc : gmap string string) : gmap string string :=
  foldl (fun acc checkin =>
           match stored !! ck_imageId checkin with
           | Some im => <[ck_imageId checkin := readAsDataURL env (img_blob im)]> acc
           | None => acc
           end) acc checkins.

(** The requests that stay on the device. *)
Definition all_local (evs : list Event) : bool :=
  forallb (fun ev => negb (is_remote ev)) evs.

Definition all_remote (evs : list Event) : bool :=
  forallb is_remote evs.

(* ===================================================================== *)
(** * Sample platforms and stores *)
(* ===================================================================== *)

(** A browser context that has stored nothing and has not yet opened
    its database. *)
Definition fresh : World :=
  {| tick := 0; db := false; images := ∅; selfie_checkins := None; trace := [] |}.

Definition selfie : Blob :=
  {| blob_type := "image/jpeg";
     blob_bytes := [Byte.xff; Byte.xd8; Byte.xff; Byte.xe0; Byte.x00; Byte.x10] |}.

Definition new_york : Location :=
  {| latitude := 407128 # 10000; longitude := -740060 # 10000;
     accuracy := 5 # 1; loc_timestamp := 1700000000000 |}.

(** A reading no receiver can produce: latitude 91 degrees. *)
Definition off_the_globe : Location :=
  {| latitude := 91 # 1; longitude := 0 # 1;
     accuracy := 5 # 1; loc_timestamp := 1700000000000 |}.

(** A reading from a receiver that has no fix: the latitude is NaN. *)
Definition no_fix : Location :=
  {| latitude := NaN; longitude := 0 # 1;
     accuracy := 5 # 1; loc_timestamp := 1700000000000 |}.

Definition network_down : JsError := MkError "TypeError" "Failed to fetch" None.

Definition quota_exceeded : JsError :=
  MkError "QuotaExceededError" "The quota has been exceeded." None.

(** Three documents of two users; the clock of [offline] below reads
    2023-11-14T22:13:20Z, so only the first was created on that day. *)
Definition three_docs : list FirebaseCheckin :=
  [ mkFirebaseCheckin "d1" "FIELD_01" "VER-A" (407128 # 10000) (-740060 # 10000) (5 # 1)
      None 1699999000000;
    mkFirebaseCheckin "d2" "FIELD_02" "VER-B" (407128 # 10000) (-740060 # 10000) (5 # 1)
      None 1699900000000;
    mkFirebaseCheckin "d3" "FIELD_01" "VER-C" (407128 # 10000) (-740060 # 10000) (5 # 1)
      None 1699000000000 ].

(** A document stamped two days ahead by a device whose clock runs
    fast. *)
Definition fast_clock_docs : list FirebaseCheckin :=
  [ mkFirebaseCheckin "d4" "FIELD_03" "VER-D" (407128 # 10000) (-740060 # 10000) (5 # 1)
      None 1700172800000 ].

(** A device with working storage and no network, its time zone UTC;
    the remote stores, asked directly, answer. *)
Definition offline : Platform :=
  {| clock := fun k => 1700000000000 + Z.of_nat k;
     random36 := fun _ => "0.4fzyo82mvyr";
     fault := fun _ => None;
     fetched := fun _ => FetchThrows network_down;
     firestore := fun _ => GetDocsReturns three_docs;
     supabase := fun _ => {| sb_data := Some []; sb_error := None |};
     startOfLocalDay := fun t => t - t mod msPerDay;
     sevenDaysEarlier := fun t => t - 7 * msPerDay;
     readAsDataURL := fun b => "data:" +:+ blob_type b +:+ ";base64,";
     jsonByteLength := fun l => 2 + 256 * Z.of_nat (length l);
     toISOString := fun _ => "2023-11-14T22:13:20.000Z" |}.

(** The same device when every storage request fails for lack of
    space. *)
Definition disk_full : Platform :=
  {| clock := clock offline;
     random36 := random36 offline;
     fault := fun k => if (k =? 0)%nat then None else Some quota_exceeded;
     fetched := fetched offline;
     firestore := firestore offline;
     supabase := supabase offline;
     startOfLocalDay := startOfLocalDay offline;
     sevenDaysEarlier := sevenDaysEarlier offline;
     readAsDataURL := readAsDataURL offline;
     jsonByteLength := jsonByteLength offline;
     toISOString := toISOString offline |}.

(** The same device when both remote stores are down. *)
Definition backends_down : Platform :=
  {| clock := clock offline;
     random36 := random36 offline;
     fault := fault offline;
     fetched := fetched offline;
     firestore := fun _ => GetDocsThrows network_down;
     supabase := fun _ => {| sb_data := None; sb_error := Some network_down |};
     startOfLocalDay := startOfLocalDay offline;
     sevenDaysEarlier := sevenDaysEarlier offline;
     readAsDataURL := readAsDataURL offline;
     jsonByteLength := jsonByteLength offline;
     toISOString := toISOString offline |}.

(** The same device when the remote store holds the fast-clock
    document. *)
Definition skewed : Platform :=
  {| clock := clock offline;
     random36 := random36 offline;
     fault := fault offline;
     fetched := fetched offline;
     firestore := fun _ => GetDocsReturns fast_clock_docs;
     supabase := supabase offline;
     startOfLocalDay := startOfLocalDay offline;
     sevenDaysEarlier := sevenDaysEarlier offline;
     readAsDataURL := readAsDataURL offline;
     jsonByteLength := jsonByteLength offline;
     toISOString := toISOString offline |}.

(** A store holding one record whose image has gone. *)
Definition orphan_record : CheckinData :=
  {| ck_id := "checkin_1_abc"; ck_userCode := "FIELD_01"; ck_timestamp := 1;
     ck_location := new_york; ck_imageId := "img_1_gone"; ck_submissionId := "VER-ABC123" |}.

Definition dangling : World :=
  {| tick := 0; db := true; images := ∅;
     selfie_checkins := Some [orphan_record]; trace := [] |}.

(** The store after one submission on the [offline] device. *)
Definition one_checkin : World :=
  world_of (storeCompleteCheckin offline "FIELD_01" new_york selfie "VER-ABC123" fresh).

(** Closes a goal about a finished run: the result and the final store
    are read off, the trace is reassociated. *)
Ltac sync_done :=
  eexists _, _, _;
  split; [reflexivity|];
  split; [reflexivity|];
  split; [reflexivity|];
  split; [simpl; rewrite <- ?app_assoc; reflexivity|];
  split; [reflexivity|];
  split; reflexivity.

(* ===================================================================== *)
(** * Further sample platforms *)
(* ===================================================================== *)

(** A device whose clock and random generator stand still, so that
    every key it draws is the same. *)
Definition frozen : Platform :=
  {| clock := fun _ => 1700000000000;
     random36 := random36 offline;
     fault := fault offline;
     fetched := fetched offline;
     firestore := firestore offline;
     supabase := supabase offline;
     startOfLocalDay := startOfLocalDay offline;
     sevenDaysEarlier := sevenDaysEarlier offline;
     readAsDataURL := readAsDataURL offline;
     jsonByteLength := jsonByteLength offline;
     toISOString := toISOString offline |}.

(** A device on which IndexedDB works and localStorage is full. *)
Definition metadata_full : Platform :=
  {| clock := clock offline;
     random36 := random36 offline;
     fault := fun k => if (k =? 8)%nat then Some quota_exceeded else None;
     fetched := fetched offline;
     firestore := firestore offline;
     supabase := supabase offline;
     startOfLocalDay := startOfLocalDay offline;
     sevenDaysEarlier := sevenDaysEarlier offline;
     readAsDataURL := readAsDataURL offline;
     jsonByteLength := jsonByteLength offline;
     toISOString := toISOString offline |}.

(** The store after one submission on the [frozen] device. *)
Definition frozen_once : World :=
  world_of (storeCompleteCheckin frozen "FIELD_01" new_york selfie "VER-ABC123" fresh).

(** The index after one [storeCheckin] on the [frozen] device. *)
Definition frozen_index : World :=
  world_of (storeCheckin frozen (mkCheckinInput "FIELD_01" 1 new_york "img_a" "VER-A") fresh).

(** Runs the case analysis of a storage operation: every consultation
    of the platform and every lookup in the image store is split. *)
Ltac split_run env :=
  repeat (simpl;
          match goal with
          | |- context [match fault env ?n with _ => _ end] =>
              destruct (fault env n) eqn:?
          | |- context [match images ?w !! ?k with _ => _ end] =>
              destruct (images w !! k) eqn:?
          end).

(* ===================================================================== *)
(** * Vocabulary for the API client *)
(* ===================================================================== *)

Arguments mkApiResponse {T} _ _ _.
Arguments success {T} _.
Arguments data {T} _.
Arguments error {T} _.

(** The message under which a request that did not succeed is
    reported: the message of the network error; for a reply that is not
    ok, its [error] property when that is a non-empty string and
    [default] otherwise; for a reply not ok whose body is [null], the
    message of the TypeError that reading [error] raises. *)
Definition failure_message (default : string) (o : FetchOutcome) : string :=
  match o with
  | FetchThrows e => err_message_of e
  | FetchReplies _ JNull => "Cannot read properties of null (reading 'error')"
  | FetchReplies _ JFalsy => default
  | FetchReplies _ (JObject _ _ e) => or_else e default
  end.

(** What [submitCheckin] and [uploadImage] resolve to, given the
    outcome of their request. *)
Definition reported (default : string) (o : FetchOutcome) : ApiResponse Json :=
  match o with
  | FetchReplies true body => mkApiResponse true (Some body) None
  | _ => mkApiResponse false None (Some (failure_message default o))
  end.

Definition a_reply : Json :=
  JObject (Some "srv-42") (Some "https://cdn.example/selfie-srv-42.jpg") None.

(** A device whose backend answers every request with [a_reply]. *)
Definition online : Platform :=
  {| clock := clock offline;
     random36 := random36 offline;
     fault := fault offline;
     fetched := fun _ => FetchReplies true a_reply;
     firestore := firestore offline;
     supabase := supabase offline;
     startOfLocalDay := startOfLocalDay offline;
     sevenDaysEarlier := sevenDaysEarlier offline;
     readAsDataURL := readAsDataURL offline;
     jsonByteLength := jsonByteLength offline;
     toISOString := toISOString offline |}.

(** The same, when the backend refuses whatever is sent as the second
    request. *)
Definition upload_refused : Platform :=
  {| clock := clock offline;
     random36 := random36 offline;
     fault := fault offline;
     fetched := fun k => if (k =? 1)%nat
                         then FetchReplies false (JObject None None (Some "File too large"))
                         else FetchReplies true a_reply;
     firestore := firestore offline;
     supabase := supabase offline;
     startOfLocalDay := startOfLocalDay offline;
     sevenDaysEarlier := sevenDaysEarlier offline;
     readAsDataURL := readAsDataURL offline;
     jsonByteLength := jsonByteLength offline;
     toISOString := toISOString offline |}.

(** The same, when the backend answers the insert of the first
    submission with an empty body. *)
Definition empty_reply : Platform :=
  {| clock := clock offline;
     random36 := random36 offline;
     fault := fault offline;
     fetched := fun k => if (k =? 12)%nat then FetchReplies true JNull
                         else FetchReplies true a_reply;
     firestore := firestore offline;
     supabase := supabase offline;
     startOfLocalDay := startOfLocalDay offline;
     sevenDaysEarlier := sevenDaysEarlier offline;
     readAsDataURL := readAsDataURL offline;
     jsonByteLength := jsonByteLength offline;
     toISOString := toISOString offline |}.

Definition a_submission : ApiCheckinData :=
  {| api_userCode := "FIELD_01"; api_timestamp := 1700000000000;
     api_location := new_york; api_submissionId := "VER-ABC123" |}.

(* ===================================================================== *)
(** * Vocabulary for the remote statistics *)
(* ===================================================================== *)

(** The number of rows whose [created_at] is present and satisfies
    [p]. *)
Definition rows_where (p : string -> bool) (rows : list SupabaseRow) : nat :=
  length (List.filter (fun c => match sb_created_at c with
                                | Some created_at => p created_at
                                | None => false
                                end) rows).

(** Rows as the table returns them, each with its [created_at]. *)
Definition two_rows : list SupabaseRow :=
  [ mkSupabaseRow "FIELD_01" (Some "2023-11-14T09:00:00.000Z");
    mkSupabaseRow "FIELD_01" (Some "2023-11-01T09:00:00.000Z") ].

(** The same rows and one more without [created_at]. *)
Definition rows_with_gap : list SupabaseRow :=
  two_rows ++ [mkSupabaseRow "FIELD_02" None].

(** The [offline] device when the Supabase table holds [rows]. *)
Definition with_rows (rows : list SupabaseRow) : Platform :=
  {| clock := clock offline;
     random36 := random36 offline;
     fault := fault offline;
     fetched := fetched offline;
     firestore := firestore offline;
     supabase := fun _ => {| sb_data := Some rows; sb_error := None |};
     startOfLocalDay := startOfLocalDay offline;
     sevenDaysEarlier := sevenDaysEarlier offline;
     readAsDataURL := readAsDataURL offline;
     jsonByteLength := jsonByteLength offline;
     toISOString := fun t => if t <? 1700000000000
                             then "2023-11-07T22:13:20.002Z"
                             else "2023-11-14T22:13:20.001Z" |}.

(* ===================================================================== *)
(** * The remote stores: writing a check-in *)
(* ===================================================================== *)

(** The two cloud adapters write through the SDK of their backend.
    As for the browser, every call into the SDK consumes one tick and
    reads its outcome from the [Backend] at that tick; the calls are
    logged in order with their arguments. *)
Module Cloud.

(** The object [checkinData] that the Firebase adapter hands to
    [addDoc]. *)
Record FirebaseDoc : Type := mkFirebaseDoc {
  fd_userCode : string;
  fd_submissionId : string;
  fd_latitude : JsNumber;
  fd_longitude : JsNumber;
  fd_accuracy : JsNumber;
  fd_imageUrl : string;
  fd_timestamp : Z;
  fd_createdAt : Z
}.

(** [{ id: docRef.id, ...checkinData }] *)
Record FirebaseStored : Type := mkFirebaseStored {
  fs_id : string;
  fs_data : FirebaseDoc
}.

(** The row [checkinData] that the Supabase adapter inserts. *)
Record SupabaseInsert : Type := mkSupabaseInsert {
  si_user_code : string;
  si_submission_id : string;
  si_latitude : JsNumber;
  si_longitude : JsNumber;
  si_accuracy : JsNumber;
  si_image_url : string
}.

(** [interface CheckinData] of supabase-storage.ts: a row as the table
    returns it. *)
Record SupabaseCheckin : Type := mkSupabaseCheckin {
  sc_id : option string;
  sc_user_code : string;
  sc_submission_id : string;
  sc_latitude : Q;
  sc_longitude : Q;
  sc_accuracy : Q;
  sc_image_url : option string;
  sc_created_at : option string
}.

(** The awaited [{ data, error }] of an insert. *)
Record InsertOutcome : Type := mkInsertOutcome {
  ins_data : option SupabaseCheckin;
  ins_error : option JsError
}.

(** A promise of the Firebase SDK, settled. *)
Inductive Settled (A : Type) : Type :=
  | Fulfilled (a : A)
  | Rejected (e : JsError).
Arguments Fulfilled {A} a.
Arguments Rejected {A} e.

Record Backend : Type := mkBackend {
  (** [Date.now()] and [new Date()] at a tick *)
  now : nat -> Z;
  (** [Date.prototype.toISOString] *)
  iso : Z -> string;
  (** Firebase [uploadBytes] issued at a tick *)
  uploaded : nat -> Settled unit;
  (** Firebase [getDownloadURL] issued at a tick *)
  downloadURL : nat -> Settled string;
  (** Firebase [addDoc] issued at a tick: the id of the new document *)
  addedDoc : nat -> Settled string;
  (** the [error] of the Supabase storage upload issued at a tick *)
  uploadError : nat -> option JsError;
  (** Supabase [getPublicUrl] of a file of the bucket *)
  publicUrl : string -> string;
  (** the outcome of the Supabase insert issued at a tick *)
  inserted : nat -> InsertOutcome
}.

(** The calls into the SDKs, with what they are given. *)
Inductive Call : Type :=
  | UploadBytes (path : string) (blob : Blob) (userCode submissionId uploadedAt : string)
  | GetDownloadURL (path : string)
  | AddDoc (collection : string) (doc : FirebaseDoc)
  | StorageUpload (bucket file : string) (blob : Blob) (upsert : bool)
  | TableInsert (table : string) (row : SupabaseInsert).

Record State : Type := mkState {
  at_tick : nat;
  calls : list Call
}.

Inductive Outcome (A : Type) : Type :=
  | Returns (a : A) (s : State)
  | Throws (e : JsError) (s : State).
Arguments Returns {A} a s.
Arguments Throws {A} e s.

Definition R (A : Type) : Type := State -> Outcome A.

Definition rret {A} (a : A) : R A := fun s => Returns a s.

Definition rthrow {A} (e : JsError) : R A := fun s => Throws e s.

Definition rbind {A B} (m : R A) (k : A -> R B) : R B :=
  fun s => match m s with
           | Returns a s' => k a s'
           | Throws e s' => Throws e s'
           end.

(** [try { m } catch (error) { h error }] *)
Definition rtry {A} (m : R A) (h : JsError -> R A) : R A :=
  fun s => match m s with
           | Returns a s' => Returns a s'
           | Throws e s' => h e s'
           end.

Notation "'let+' x ':=' m 'in' k" := (rbind m (fun x => k))
  (at level 10, x name, m at level 100, k at level 200).
Notation "'run' m 'then' k" := (rbind m (fun _ => k))
  (at level 10, m at level 100, k at level 200).

Definition state_of {A} (o : Outcome A) : State :=
  match o with Returns _ s => s | Throws _ s => s end.

(** One call into an SDK has been made. *)
Definition called (c : Call) (s : State) : State :=
  {| at_tick := S (at_tick s); calls := calls s ++ [c] |}.

Section Program.

Variable backend : Backend.

(** [Date.now()], and the time value of [new Date()] *)
Definition Date_now : R Z :=
  fun s => Returns (now backend (at_tick s))
             {| at_tick := S (at_tick s); calls := calls s |}.

(** An awaited call of the Firebase SDK. *)
Definition await {A} (c : Call) (settled : nat -> Settled A) : R A :=
  fun s => match settled (at_tick s) with
           | Fulfilled a => Returns a (called c s)
           | Rejected e => Throws e (called c s)
           end.

End Program.
End Cloud.

(** FirebaseStorageService.storeCompleteCheckin
    (src/lib/firebase-storage.ts) *)
Module FirebaseStore.
Import Cloud.
Section Program.

Variable backend : Backend.

Definition storeCompleteCheckin (userCode : string) (location : Location)
    (imageBlob : Blob) (submissionId : string) : R FirebaseStored :=
  rtry
    (let imageFileName := "selfies/" +:+ submissionId +:+ ".jpg" in
     let+ d := Date_now backend in
     run await (UploadBytes imageFileName imageBlob userCode submissionId (iso backend d))
               (uploaded backend) then
     let+ imageUrl := await (GetDownloadURL imageFileName) (downloadURL backend) in
     let+ t := Date_now backend in
     let+ c := Date_now backend in
     let checkinData :=
       {| fd_userCode := userCode;
          fd_submissionId := submissionId;
          fd_latitude := latitude location;
          fd_longitude := longitude location;
          fd_accuracy := accuracy location;
          fd_imageUrl := imageUrl;
          fd_timestamp := t;
          fd_createdAt := c |} in
     let+ docId := await (AddDoc "checkins" checkinData) (addedDoc backend) in
     rret {| fs_id := docId; fs_data := checkinData |})
    (fun error =>
       rthrow (new_Error ("Firebase storage failed: " +:+ err_message_of error))).

End Program.
End FirebaseStore.

(** SupabaseStorageService.storeCompleteCheckin
    (src/lib/supabase-storage.ts) *)
Module SupabaseStore.
Import Cloud.
Section Program.

Variable backend : Backend.

(** [await supabase.storage.from('selfies').upload(file, blob,
    { cacheControl: '3600', upsert: true })]: resolves to its
    [error]. *)
Definition upload (file : string) (blob : Blob) : R (option JsError) :=
  fun s => Returns (uploadError backend (at_tick s))
             (called (StorageUpload "selfies" file blob true) s).

(** [await supabase.from('checkins').insert([row]).select().single()] *)
Definition insert (row : SupabaseInsert) : R InsertOutcome :=
  fun s => Returns (inserted backend (at_tick s)) (called (TableInsert "checkins" row) s).

Definition storeCompleteCheckin (userCode : string) (location : Location)
    (imageBlob : Blob) (submissionId : string) : R (option SupabaseCheckin) :=
  rtry
    (let imageFileName := submissionId +:+ ".jpg" in
     let+ imageError := upload imageFileName imageBlob in
     match imageError with
     | Some e => rthrow (new_Error ("Image upload failed: " +:+ err_message_of e))
     | None =>
         let publicUrl := publicUrl backend imageFileName in
         let checkinData :=
           {| si_user_code := userCode;
              si_submission_id := submissionId;
              si_latitude := latitude location;
              si_longitude := longitude location;
              si_accuracy := accuracy location;
              si_image_url := publicUrl |} in
         let+ reply := insert checkinData in
         match ins_error reply with
         | Some e => rthrow (new_Error ("Database insert failed: " +:+ err_message_of e))
         | None => rret (ins_data reply)
         end
     end)
    (fun error => rthrow error).

End Program.
End SupabaseStore.

(** A backend on which everything works. *)
Definition healthy_backend : Cloud.Backend :=
  {| Cloud.now := fun k => 1700000000000 + Z.of_nat k;
     Cloud.iso := fun _ => "2023-11-14T22:13:20.000Z";
     Cloud.uploaded := fun _ => Cloud.Fulfilled tt;
     Cloud.downloadURL := fun _ => Cloud.Fulfilled "https://firebasestorage.example/o/VER-ABC123";
     Cloud.addedDoc := fun _ => Cloud.Fulfilled "doc-1";
     Cloud.uploadError := fun _ => None;
     Cloud.publicUrl := fun file => "https://supabase.example/selfies/" +:+ file;
     Cloud.inserted := fun _ =>
       {| Cloud.ins_data :=
            Some (Cloud.mkSupabaseCheckin (Some "row-1") "FIELD_01" "VER-ABC123"
                    (407128 # 10000) (-740060 # 10000) (5 # 1)
                    (Some "https://supabase.example/selfies/VER-ABC123.jpg")
                    (Some "2023-11-14T22:13:20.000Z"));
          Cloud.ins_error := None |} |}.

(** A backend that stores files and refuses records. *)
Definition records_refused : Cloud.Backend :=
  {| Cloud.now := Cloud.now healthy_backend;
     Cloud.iso := Cloud.iso healthy_backend;
     Cloud.uploaded := Cloud.uploaded healthy_backend;
     Cloud.downloadURL := Cloud.downloadURL healthy_backend;
     Cloud.addedDoc := fun _ =>
       Cloud.Rejected (MkError "FirebaseError" "Missing or insufficient permissions." None);
     Cloud.uploadError := Cloud.uploadError healthy_backend;
     Cloud.publicUrl := Cloud.publicUrl healthy_backend;
     Cloud.inserted := fun _ =>
       {| Cloud.ins_data := None;
          Cloud.ins_error :=
            Some (MkError "PostgrestError" "new row violates row-level security policy" None) |} |}.

Definition cloud_start : Cloud.State := {| Cloud.at_tick := 0; Cloud.calls := [] |}.

(* ===================================================================== *)
(** * Properties of the local store *)
(* ===================================================================== *)

(** Writing to JSON and reading back a second time changes nothing. *)
Lemma json_number_idem x : json_number (json_number x) = json_number x.
Proof. now destruct x. Qed.

Lemma json_checkin_idem c : json_checkin (json_checkin c) = json_checkin c.
Proof.
  unfold json_checkin, json_location. simpl. now rewrite !json_number_idem.
Qed.

Lemma through_JSON_idem l : through_JSON (through_JSON l) = through_JSON l.
Proof.
  unfold through_JSON. rewrite <- list_fmap_compose.
  apply list_fmap_ext. intros _ c _. apply json_checkin_idem.
Qed.

(** JSON hands back plain numbers as they were. *)
Lemma plain_json x : plain x = true -> json_number x = x.
Proof. now destruct x. Qed.

Lemma plain_location_json l : plain_location l = true -> json_location l = l.
Proof.
  unfold plain_location, json_location. destruct l as [la lo ac ts]. simpl.
  intros H. apply andb_prop in H as [H Hts]. apply andb_prop in H as [H Hac].
  apply andb_prop in H as [Hla Hlo].
  now rewrite !plain_json.
Qed.

(** What has been read from the index is read back as it is. *)
Lemma getAllCheckins_through_JSON w :
  through_JSON (getAllCheckins w) = getAllCheckins w.
Proof.
  unfold getAllCheckins. destruct (selfie_checkins w); [apply through_JSON_idem | reflexivity].
Qed.

(** The index read back after the index with one more record has been
    written. *)
Lemma getAllCheckins_written w w' c :
  selfie_checkins w' = Some (getAllCheckins w ++ [c]) ->
  getAllCheckins w' = getAllCheckins w ++ [json_checkin c].
Proof.
  intros H. unfold getAllCheckins at 1. rewrite H.
  unfold through_JSON. rewrite fmap_app. simpl.
  fold (through_JSON (getAllCheckins w)). now rewrite getAllCheckins_through_JSON.
Qed.

Lemma getAllCheckins_same w w' :
  selfie_checkins w' = selfie_checkins w -> getAllCheckins w' = getAllCheckins w.
Proof. unfold getAllCheckins. now intros ->. Qed.

(** How far [ensureDB] moves a store: it opens the database when it is
    closed and touches nothing else. *)
Lemma ensureDB_Ok env w u w0 :
  ensureDB env w = Ok u w0 ->
  db w0 = true /\ images w0 = images w /\ selfie_checkins w0 = selfie_checkins w
  /\ (tick w <= tick w0)%nat
  /\ trace w0 = trace w ++ (if db w then [] else [IdbOpen]).
Proof.
  unfold ensureDB, initDB, request.
  destruct (db w) eqn:Hdb.
  - intros [= <- <-]. rewrite app_nil_r. auto.
  - destruct (fault env (tick w)); [discriminate|].
    intros [= <- <-]. simpl. repeat split; auto with lia.
Qed.

Lemma ensureDB_opened env w :
  db w = true -> ensureDB env w = Ok tt w.
Proof. unfold ensureDB. now intros ->. Qed.

(** Every successful run of the [try] block of [storeCompleteCheckin],
    spelled out. *)
Lemma storeCompleteCheckin_try_Ok env userCode location imageBlob submissionId w rec w' :
  storeCompleteCheckin_try env userCode location imageBlob submissionId w = Ok rec w' ->
  exists w0,
    ensureDB env w = Ok tt w0
    /\ fault env (3 + tick w0) = None
    /\ fault env (7 + tick w0) = None
    /\ images w0 !! image_key env (tick w0) = None
    /\ rec = mkCheckin (checkin_key env (tick w0)) userCode (clock env (8 + tick w0))
               location (image_key env (tick w0)) submissionId
    /\ w' = mkWorld (9 + tick w0) (db w0)
              (<[image_key env (tick w0) :=
                   mkStoredImage (image_key env (tick w0)) imageBlob (clock env (2 + tick w0))]>
                 (images w0))
              (Some (getAllCheckins w0
                     ++ [mkCheckin (checkin_key env (tick w0)) userCode
                           (clock env (4 + tick w0)) location
                           (image_key env (tick w0)) submissionId]))
              ((trace w0 ++ [IdbAdd (image_key env (tick w0))]) ++ [LsSetItem]).
Proof.
  unfold storeCompleteCheckin_try, storeImage, storeCheckin, idb_add, request,
    Date_now, Math_random36, bind, ret.
  destruct (ensureDB env w) as [[] w0|] eqn:Hdb; [|discriminate].
  simpl.
  destruct (fault env (S (S (S (tick w0))))) eqn:Hf1; [discriminate|].
  simpl.
  destruct (images w0 !! _) eqn:Hfresh; [discriminate|].
  simpl.
  destruct (fault env (S (S (S (S (S (S (S (tick w0))))))))) eqn:Hf2; [discriminate|].
  simpl. intros [= <- <-].
  exists w0. repeat split; auto.
Qed.

(** Conversely, the [try] block succeeds as soon as the database opens,
    the two writes are accepted and the image key is new. *)
Lemma storeCompleteCheckin_try_run env userCode location imageBlob submissionId w w0 :
  ensureDB env w = Ok tt w0 ->
  fault env (3 + tick w0) = None ->
  fault env (7 + tick w0) = None ->
  images w0 !! image_key env (tick w0) = None ->
  storeCompleteCheckin_try env userCode location imageBlob submissionId w =
    Ok (mkCheckin (checkin_key env (tick w0)) userCode (clock env (8 + tick w0))
          location (image_key env (tick w0)) submissionId)
       (mkWorld (9 + tick w0) (db w0)
          (<[image_key env (tick w0) :=
               mkStoredImage (image_key env (tick w0)) imageBlob (clock env (2 + tick w0))]>
             (images w0))
          (Some (getAllCheckins w0
                 ++ [mkCheckin (checkin_key env (tick w0)) userCode
                       (clock env (4 + tick w0)) location
                       (image_key env (tick w0)) submissionId]))
          ((trace w0 ++ [IdbAdd (image_key env (tick w0))]) ++ [LsSetItem])).
Proof.
  intros Hdb Hf1 Hf2 Hfresh.
  unfold storeCompleteCheckin_try, storeImage, storeCheckin, idb_add, request,
    Date_now, Math_random36, bind, ret.
  rewrite Hdb. simpl in *. rewrite Hf1. simpl.
  change (images w0 !! image_key env (tick w0) = None) in Hfresh.
  unfold image_key in Hfresh. simpl in Hfresh. rewrite Hfresh. simpl.
  rewrite Hf2. reflexivity.
Qed.

(** The [catch] of [storeCompleteCheckin] leaves a successful run as it
    is. *)
Lemma storeCompleteCheckin_Ok env userCode location imageBlob submissionId w rec w' :
  storeCompleteCheckin env userCode location imageBlob submissionId w = Ok rec w' <->
  storeCompleteCheckin_try env userCode location imageBlob submissionId w = Ok rec w'.
Proof.
  unfold storeCompleteCheckin, try_catch, throw.
  destruct (storeCompleteCheckin_try _ _ _ _ _ _); split; congruence.
Qed.

(** [storeCheckin] appends its record at the end of the list. *)
Lemma storeCheckin_appends env data w checkinId w' :
  storeCheckin env data w = Ok checkinId w' ->
  getAllCheckins w' = getAllCheckins w ++ [json_checkin (with_id checkinId data)].
Proof.
  unfold storeCheckin, request, Date_now, Math_random36, bind.
  simpl. destruct (fault env _); [discriminate|].
  intros [= <- <-]. now apply getAllCheckins_written.
Qed.

Lemma persistence_attempts_app t1 t2 :
  persistence_attempts (t1 ++ t2) = persistence_attempts t1 ++ persistence_attempts t2.
Proof. apply List.filter_app. Qed.

(** Opening the database persists nothing. *)
Lemma ensureDB_persists_nothing env w u w0 :
  ensureDB env w = Ok u w0 ->
  persistence_attempts (trace w0) = persistence_attempts (trace w).
Proof.
  intros H. apply ensureDB_Ok in H as (_ & _ & _ & _ & ->).
  rewrite persistence_attempts_app.
  destruct (db w); simpl; now rewrite app_nil_r.
Qed.

(** The index after a successful submit: the old index, then the
    record as JSON hands it back, which is the returned record but for
    its timestamp, read from the clock earlier. *)
Lemma storeCompleteCheckin_index
    env userCode location imageBlob submissionId w rec w' :
  storeCompleteCheckin env userCode location imageBlob submissionId w = Ok rec w' ->
  exists i j,
    (tick w <= i < j)%nat /\ (j < tick w')%nat
    /\ ck_timestamp rec = clock env j
    /\ getAllCheckins w'
       = getAllCheckins w
         ++ [json_checkin (mkCheckin (ck_id rec) (ck_userCode rec) (clock env i)
                             (ck_location rec) (ck_imageId rec) (ck_submissionId rec))].
Proof.
  intros H. apply storeCompleteCheckin_Ok in H.
  apply storeCompleteCheckin_try_Ok in H as (w0 & Hdb & _ & _ & _ & -> & ->).
  apply ensureDB_Ok in Hdb as (_ & _ & Hsame & Htick & _).
  exists (4 + tick w0)%nat, (8 + tick w0)%nat. simpl.
  split; [lia|]. split; [lia|]. split; [reflexivity|].
  rewrite <- (getAllCheckins_same w w0 Hsame).
  now apply getAllCheckins_written.
Qed.

(** C1.  When [storeCompleteCheckin] succeeds, [getImage] on the
    [imageId] of the returned record reads back the very blob that was
    supplied: unless the read request itself fails in the platform, it
    resolves to that blob, never to [null] and never to other bytes.
    This holds for every input, hence for every valid one. *)
Theorem storeCompleteCheckin_image_resolves
    env userCode location imageBlob submissionId w rec w' :
  storeCompleteCheckin env userCode location imageBlob submissionId w = Ok rec w' ->
  getImage env (ck_imageId rec) w' =
    match fault env (tick w') with
    | None => Ok (Some imageBlob) (advance (note (IdbGet (ck_imageId rec)) w'))
    | Some e => Err e (advance (note (IdbGet (ck_imageId rec)) w'))
    end.
Proof.
  intros H. apply storeCompleteCheckin_Ok in H.
  apply storeCompleteCheckin_try_Ok in H as (w0 & Hdb & _ & _ & _ & -> & ->).
  apply ensureDB_Ok in Hdb as (Hopen & _).
  unfold getImage, bind, request. rewrite ensureDB_opened by exact Hopen.
  simpl. destruct (fault env _); [reflexivity|].
  simpl. now rewrite lookup_insert_eq.
Qed.

Lemma storeCompleteCheckin_image_resolves_witness :
  exists rec w',
    storeCompleteCheckin offline "FIELD_01" new_york selfie "VER-ABC123" fresh = Ok rec w'
    /\ getImage offline (ck_imageId rec) w' =
         Ok (Some selfie) (advance (note (IdbGet (ck_imageId rec)) w')).
Proof.
  eexists _, _. split; [vm_compute; reflexivity|].
  exact (storeCompleteCheckin_image_resolves offline "FIELD_01" new_york selfie
           "VER-ABC123" fresh _ _ eq_refl).
Defined.



(** C10, as it is worded, fails: the persisted record has been through
    JSON, which writes a number that is not finite as [null].  With a
    reading whose latitude is NaN the returned record keeps NaN and the
    persisted record has [null], so the two do not agree on the
    location. *)
Lemma nan_location_is_persisted_as_null :
  exists rec w' p,
    storeCompleteCheckin offline "FIELD_01" no_fix selfie "VER-ABC123" fresh = Ok rec w'
    /\ last (getAllCheckins w') = Some p
    /\ ck_id p = ck_id rec
    /\ latitude (ck_location rec) = NaN
    /\ latitude (ck_location p) = Null
    /\ ck_location p <> ck_location rec.
Proof.
  eexists _, _, _. split; [vm_compute; reflexivity|].
  split; [vm_compute; reflexivity|]. split; [reflexivity|].
  split; [reflexivity|]. split; [reflexivity|]. discriminate.
Qed.

(** C10, amended.  The record [storeCompleteCheckin] returns and the
    record it persisted, the last of the index, agree on id, userCode,
    imageId and submissionId.  The persisted location is the returned
    one as JSON hands it back: the same whenever all its numbers are
    finite (and not -0), with [null] in place of a number that is not.
    Their timestamps come from two reads of the clock, the returned one
    from the later read, so they differ whenever the clock has moved
    between the two. *)
Theorem storeCompleteCheckin_returned_vs_persisted
    env userCode location imageBlob submissionId w rec w' :
  storeCompleteCheckin env userCode location imageBlob submissionId w = Ok rec w' ->
  exists p i j,
    last (getAllCheckins w') = Some p
    /\ ck_id p = ck_id rec
    /\ ck_userCode p = ck_userCode rec
    /\ ck_location p = json_location (ck_location rec)
    /\ (plain_location (ck_location rec) = true -> ck_location p = ck_location rec)
    /\ ck_imageId p = ck_imageId rec
    /\ ck_submissionId p = ck_submissionId rec
    /\ ck_timestamp p = clock env i
    /\ ck_timestamp rec = clock env j
    /\ (tick w <= i < j)%nat /\ (j < tick w')%nat.
Proof.
  intros H.
  destruct (storeCompleteCheckin_index _ _ _ _ _ _ _ _ H)
    as (i & j & Hij & Hj & Hrec & Hindex).
  eexists _, i, j. split; [rewrite Hindex; apply last_snoc|]. simpl.
  repeat split; auto; try lia.
  apply plain_location_json.
Qed.

Lemma storeCompleteCheckin_returned_vs_persisted_witness :
  exists rec w' p,
    storeCompleteCheckin offline "FIELD_01" new_york selfie "VER-ABC123" fresh = Ok rec w'
    /\ last (getAllCheckins w') = Some p
    /\ ck_id p = ck_id rec
    /\ ck_location p = ck_location rec
    /\ ck_timestamp p = 1700000000005
    /\ ck_timestamp rec = 1700000000009.
Proof.
  destruct (storeCompleteCheckin_returned_vs_persisted offline "FIELD_01" new_york selfie
              "VER-ABC123" fresh _ _ eq_refl)
    as (p & i & j & Hlast & Hid & _ & _ & Hloc & _).
  eexists _, _, p. split; [reflexivity|]. split; [exact Hlast|]. split; [exact Hid|].
  split; [exact (Hloc eq_refl)|].
  vm_compute in Hlast. injection Hlast as <-. split; reflexivity.
Defined.

(** C3, as the specification words it, fails: a reading with latitude 91
    and an empty user code is not rejected; the blob is written and the
    record appended. *)
Lemma malformed_input_is_stored :
  valid_input "" off_the_globe = false
  /\ ~ rejected_before_persistence fresh
         (storeCompleteCheckin offline "" off_the_globe selfie "VER-ABC123" fresh).
Proof.
  split; [reflexivity|].
  intros (e & w' & H & _). vm_compute in H. discriminate H.
Qed.

(** C3, amended.  [storeCompleteCheckin] validates nothing.  On a
    malformed reading or an empty user code it proceeds as on any other
    input: when the database opens, both writes are accepted and the
    image key is new, it writes the blob, appends the record and returns
    it with the user code and the location as they were given. *)
Theorem storeCompleteCheckin_no_validation
    env userCode location imageBlob submissionId w w0 :
  valid_input userCode location = false ->
  ensureDB env w = Ok tt w0 ->
  fault env (3 + tick w0) = None ->
  fault env (7 + tick w0) = None ->
  images w0 !! image_key env (tick w0) = None ->
  exists rec w',
    storeCompleteCheckin env userCode location imageBlob submissionId w = Ok rec w'
    /\ ck_userCode rec = userCode
    /\ ck_location rec = location
    /\ persistence_attempts (trace w') =
         persistence_attempts (trace w) ++ [IdbAdd (ck_imageId rec); LsSetItem]
    /\ img_blob <$> images w' !! ck_imageId rec = Some imageBlob
    /\ length (getAllCheckins w') = S (length (getAllCheckins w)).
Proof.
  intros _ Hdb Hf1 Hf2 Hfresh.
  pose proof (storeCompleteCheckin_try_run env userCode location imageBlob submissionId
                w w0 Hdb Hf1 Hf2 Hfresh) as Hrun.
  apply storeCompleteCheckin_Ok in Hrun.
  eexists _, _. split; [exact Hrun|].
  pose proof (ensureDB_persists_nothing _ _ _ _ Hdb) as Hp.
  apply ensureDB_Ok in Hdb as (_ & _ & Hsame & _).
  simpl. repeat split.
  - rewrite !persistence_attempts_app, Hp. simpl. now rewrite <- app_assoc.
  - now rewrite lookup_insert_eq.
  - erewrite getAllCheckins_written by reflexivity.
    rewrite length_app, (getAllCheckins_same w w0 Hsame). simpl. lia.
Qed.

Lemma storeCompleteCheckin_no_validation_witness :
  exists rec w',
    storeCompleteCheckin offline "" off_the_globe selfie "VER-ABC123" fresh = Ok rec w'
    /\ ck_userCode rec = ""
    /\ ck_location rec = off_the_globe
    /\ persistence_attempts (trace w') = [IdbAdd (ck_imageId rec); LsSetItem].
Proof.
  destruct (storeCompleteCheckin_no_validation offline "" off_the_globe selfie "VER-ABC123"
              fresh (set_db true (advance (note IdbOpen fresh)))
              eq_refl eq_refl eq_refl eq_refl eq_refl)
    as (rec & w' & Hrun & Hu & Hl & Hp & _).
  exists rec, w'. repeat split; assumption.
Defined.

(** C5, as the specification words it, fails: when the disk is full the
    blob write fails with a QuotaExceededError, and what
    [storeCompleteCheckin] throws neither is that error nor carries it
    as its cause. *)
Lemma storage_fault_cause_is_dropped :
  (exists w1, storeCompleteCheckin_try disk_full "FIELD_01" new_york selfie "VER-ABC123" fresh
              = Err quota_exceeded w1)
  /\ forall thrown w',
       storeCompleteCheckin disk_full "FIELD_01" new_york selfie "VER-ABC123" fresh
       = Err thrown w' ->
       ~ preserves_cause thrown quota_exceeded.
Proof.
  split; [eexists; vm_compute; reflexivity|].
  intros thrown w' H. vm_compute in H. injection H as <- _.
  intros [Heq | Hcause]; discriminate.
Qed.

(** C5, amended.  Whatever fault stops the [try] block of
    [storeCompleteCheckin], a failed blob write or a failed metadata
    write, the call fails with one and the same error: a plain [Error]
    with the message "Failed to store check-in data" and no cause.  The
    original fault is not part of what is thrown. *)
Theorem storeCompleteCheckin_fault_is_generic
    env userCode location imageBlob submissionId w cause w' :
  storeCompleteCheckin_try env userCode location imageBlob submissionId w = Err cause w' ->
  storeCompleteCheckin env userCode location imageBlob submissionId w
  = Err (MkError "Error" "Failed to store check-in data" None) w'.
Proof.
  intros H. unfold storeCompleteCheckin, try_catch. now rewrite H.
Qed.

Lemma storeCompleteCheckin_fault_is_generic_witness :
  exists w',
    storeCompleteCheckin_try disk_full "FIELD_01" new_york selfie "VER-ABC123" fresh
    = Err quota_exceeded w'
    /\ storeCompleteCheckin disk_full "FIELD_01" new_york selfie "VER-ABC123" fresh
       = Err (MkError "Error" "Failed to store check-in data" None) w'.
Proof.
  eexists. split; [vm_compute; reflexivity|].
  exact (storeCompleteCheckin_fault_is_generic disk_full "FIELD_01" new_york selfie
           "VER-ABC123" fresh quota_exceeded _ eq_refl).
Defined.

(** The only error [storeCompleteCheckin] ever throws. *)
Lemma storeCompleteCheckin_Err env userCode location imageBlob submissionId w e w' :
  storeCompleteCheckin env userCode location imageBlob submissionId w = Err e w' ->
  e = new_Error "Failed to store check-in data".
Proof.
  unfold storeCompleteCheckin, try_catch, throw.
  destruct (storeCompleteCheckin_try _ _ _ _ _ _); congruence.
Qed.

(* ===================================================================== *)
(** * Properties of the export and of the local statistics *)
(* ===================================================================== *)

Lemma storage_sound_later env w w1 :
  storage_sound env w -> (tick w <= tick w1)%nat -> storage_sound env w1.
Proof. intros H Hle n Hn. apply H. lia. Qed.

(** With sound storage a read returns the blob stored under the key, or
    [null] when there is none, and changes neither store. *)
Lemma getImage_run env imageId w :
  storage_sound env w ->
  exists w1,
    getImage env imageId w = Ok (img_blob <$> images w !! imageId) w1
    /\ images w1 = images w
    /\ selfie_checkins w1 = selfie_checkins w
    /\ (tick w <= tick w1)%nat.
Proof.
  intros Hs. unfold getImage, bind, ensureDB, initDB, request.
  destruct (db w).
  - rewrite (Hs (tick w)) by lia. eexists. split; [reflexivity|]. simpl. auto.
  - rewrite (Hs (tick w)) by lia. simpl.
    rewrite (Hs (S (tick w))) by lia. eexists. split; [reflexivity|]. simpl. auto.
Qed.

Lemma export_loop_run env checkins : forall acc w,
  storage_sound env w ->
  exists w1,
    export_loop env checkins acc w = Ok (exported env (images w) checkins acc) w1
    /\ images w1 = images w
    /\ selfie_checkins w1 = selfie_checkins w.
Proof.
  induction checkins as [|checkin rest IH]; intros acc w Hs.
  - exists w. simpl. auto.
  - simpl. unfold bind.
    destruct (getImage_run env (ck_imageId checkin) w Hs) as (w1 & -> & Him & Hck & Hle).
    pose proof (storage_sound_later _ _ _ Hs Hle) as Hs1.
    destruct (images w !! ck_imageId checkin) as [im|] eqn:Hlook; simpl.
    + destruct (IH (<[ck_imageId checkin := readAsDataURL env (img_blob im)]> acc) w1 Hs1)
        as (w2 & -> & Him2 & Hck2).
      exists w2. rewrite Him. split; [reflexivity|]. split; congruence.
    + destruct (IH acc w1 Hs1) as (w2 & -> & Him2 & Hck2).
      exists w2. rewrite Him. split; [reflexivity|]. split; congruence.
Qed.

(** What the exported image map holds under a key. *)
Lemma exported_lookup env stored checkins : forall acc k,
  exported env stored checkins acc !! k =
    if bool_decide (k ∈ ck_imageId <$> checkins)
    then match stored !! k with
         | Some im => Some (readAsDataURL env (img_blob im))
         | None => acc !! k
         end
    else acc !! k.
Proof.
  induction checkins as [|checkin rest IH]; intros acc k; [reflexivity|].
  simpl. rewrite IH.
  destruct (decide (k = ck_imageId checkin)) as [->|Hne].
  - assert (Hin : ck_imageId checkin ∈ ck_imageId checkin :: (ck_imageId <$> rest))
      by apply list_elem_of_here.
    rewrite (bool_decide_eq_true_2 _ Hin).
    destruct (stored !! ck_imageId checkin) as [im|] eqn:Hlook.
    + rewrite lookup_insert_eq. now destruct (bool_decide _).
    + now destruct (bool_decide _).
  - assert (Hiff : k ∈ ck_imageId checkin :: (ck_imageId <$> rest)
                   <-> k ∈ ck_imageId <$> rest).
    { rewrite elem_of_cons. tauto. }
    rewrite (bool_decide_ext _ _ Hiff).
    destruct (stored !! ck_imageId checkin); [rewrite lookup_insert_ne by congruence|];
      reflexivity.
Qed.

(** C4, as the specification words it, fails: on a store whose only
    record points at a missing blob, [exportData] does not fail; it
    returns a snapshot with the record and an empty image map. *)
Lemma export_skips_missing_blob :
  has_missing_blob dangling
  /\ ~ (exists e w', exportData offline dangling = Err e w')
  /\ exists w', exportData offline dangling
                = Ok {| snap_checkins := [orphan_record]; snap_images := ∅ |} w'.
Proof.
  split; [|split].
  - exists orphan_record. split; [now left | reflexivity].
  - intros (e & w' & H). vm_compute in H. discriminate H.
  - eexists. vm_compute. reflexivity.
Qed.

(** C4, amended.  A missing blob does not abort the export.  On a store
    in which some record's image reference resolves to no blob, and
    with no storage request failing, [exportData] returns a snapshot
    that lists every record of the index, the unresolved ones included,
    and whose image map has an entry exactly for the image references
    that resolve: the record with the missing blob is skipped there. *)
Theorem exportData_skips_missing_blobs env w :
  has_missing_blob w ->
  storage_sound env w ->
  exists snap w',
    exportData env w = Ok snap w'
    /\ snap_checkins snap = getAllCheckins w
    /\ (forall k,
          snap_images snap !! k =
            if bool_decide (k ∈ ck_imageId <$> getAllCheckins w)
            then (fun im => readAsDataURL env (img_blob im)) <$> images w !! k
            else None)
    /\ (exists r, In r (snap_checkins snap) /\ snap_images snap !! ck_imageId r = None).
Proof.
  intros (r & Hin & Hmiss) Hs.
  unfold exportData, bind, ret.
  destruct (export_loop_run env (getAllCheckins w) ∅ w Hs) as (w1 & -> & _).
  eexists _, w1. split; [reflexivity|]. simpl.
  assert (Hall : forall k,
            exported env (images w) (getAllCheckins w) ∅ !! k =
              if bool_decide (k ∈ ck_imageId <$> getAllCheckins w)
              then (fun im => readAsDataURL env (img_blob im)) <$> images w !! k
              else None).
  { intros k. rewrite exported_lookup, lookup_empty.
    destruct (bool_decide _); [|reflexivity]. now destruct (images w !! k). }
  split; [reflexivity|]. split; [exact Hall|].
  exists r. split; [exact Hin|].
  rewrite Hall, Hmiss. now destruct (bool_decide _).
Qed.

Lemma offline_storage_sound w : storage_sound offline w.
Proof. intros n _. reflexivity. Defined.

Lemma dangling_has_missing_blob : has_missing_blob dangling.
Proof. exists orphan_record. split; [now left | reflexivity]. Defined.

Lemma exportData_skips_missing_blobs_witness :
  exists snap w',
    exportData offline dangling = Ok snap w'
    /\ snap_checkins snap = [orphan_record]
    /\ snap_images snap !! "img_1_gone" = None.
Proof.
  destruct (exportData_skips_missing_blobs offline dangling
              dangling_has_missing_blob (offline_storage_sound dangling))
    as (snap & w' & Hrun & Hck & Him & _).
  exists snap, w'. split; [exact Hrun|]. split; [exact Hck|].
  rewrite Him. reflexivity.
Defined.

(** What a successful [clearAllData] leaves behind. *)
Lemma clearAllData_Ok env w u w' :
  clearAllData env w = Ok u w' ->
  db w' = true /\ images w' = ∅ /\ selfie_checkins w' = None.
Proof.
  unfold clearAllData, ls_removeItem, bind, ensureDB, initDB, request. simpl.
  destruct (db w) eqn:Hdb; simpl.
  - destruct (fault env _); [discriminate|]. intros [= <- <-]. simpl. auto.
  - destruct (fault env _); [discriminate|]. simpl.
    destruct (fault env _); [discriminate|]. now intros [= <- <-].
Qed.

(** C6.  After [clearAllData] has succeeded, [getStorageStats] reports
    no check-ins and no images, whatever was stored before: unless the
    count request itself fails in the platform, it resolves to
    [totalCheckins = 0] and [totalImages = 0] (with the size estimate
    "0.0 KB"). *)
Theorem clear_then_stats_is_zero env w u w' :
  clearAllData env w = Ok u w' ->
  getStorageStats env w' =
    match fault env (tick w') with
    | None => Ok {| totalCheckins := 0; totalImages := 0; storageSize := "0.0 KB" |}
                 (advance (note IdbCount w'))
    | Some e => Err e (advance (note IdbCount w'))
    end.
Proof.
  intros H. apply clearAllData_Ok in H as (Hdb & Him & Hck).
  unfold getStorageStats, bind, request. rewrite ensureDB_opened by exact Hdb.
  destruct (fault env (tick w')); [reflexivity|].
  unfold estimateStorageSize, getAllCheckins. simpl. rewrite Him, Hck.
  reflexivity.
Qed.

Lemma clear_then_stats_is_zero_witness :
  exists w' w'',
    clearAllData offline one_checkin = Ok tt w'
    /\ getStorageStats offline w'
       = Ok {| totalCheckins := 0; totalImages := 0; storageSize := "0.0 KB" |} w''.
Proof.
  eexists _, _. split; [vm_compute; reflexivity|].
  exact (clear_then_stats_is_zero offline one_checkin tt _ eq_refl).
Defined.

(* ===================================================================== *)
(** * Properties of the sync orchestrator *)
(* ===================================================================== *)

(** Once the local commit has succeeded, [storeCheckinWithSync] cannot
    fail any more: the remote part only adds remote requests to the
    trace, leaves both local stores as they are, and reports whether it
    went through. *)
Lemma storeCheckinWithSync_after_commit
    env userCode location imageBlob submissionId w rec w1 :
  storeCompleteCheckin env userCode location imageBlob submissionId w = Ok rec w1 ->
  exists out w2 remote,
    storeCheckinWithSync env userCode location imageBlob submissionId w = Ok out w2
    /\ localId out = ck_id rec
    /\ synced out = negb (remote_failure env w1)
    /\ trace w2 = trace w1 ++ remote
    /\ all_remote remote = true
    /\ images w2 = images w1
    /\ selfie_checkins w2 = selfie_checkins w1.
Proof.
  intros H.
  unfold storeCheckinWithSync, try_catch, bind. rewrite H.
  unfold remote_failure, healthCheck, submitCompleteCheckin, submitCheckin, uploadImage,
    fetch, result_error, Date_now, try_catch, bind, ret, throw.
  simpl.
  destruct (fetched env (tick w1)) as [e0|[] j0]; simpl;
    try (sync_done).
  destruct (fetched env (S (S (tick w1)))) as [e1|[] [| |i1 u1 r1]]; simpl;
    try (sync_done).
  destruct (fetched env (S (S (S (tick w1))))) as [e2|[] [| |i2 u2 r2]]; simpl;
    sync_done.
Qed.

(** What a successful local commit leaves in the two stores: the
    record, last in the index, and the blob under its image key. *)
Lemma storeCompleteCheckin_committed
    env userCode location imageBlob submissionId w rec w1 :
  storeCompleteCheckin env userCode location imageBlob submissionId w = Ok rec w1 ->
  exists p,
    last (getAllCheckins w1) = Some p
    /\ ck_id p = ck_id rec
    /\ ck_imageId p = ck_imageId rec
    /\ img_blob <$> images w1 !! ck_imageId rec = Some imageBlob.
Proof.
  intros H.
  destruct (storeCompleteCheckin_index _ _ _ _ _ _ _ _ H) as (i & j & _ & _ & _ & Hindex).
  eexists. split; [rewrite Hindex; apply last_snoc|]. simpl.
  split; [reflexivity|]. split; [reflexivity|].
  apply storeCompleteCheckin_Ok in H.
  apply storeCompleteCheckin_try_Ok in H as (w0 & _ & _ & _ & _ & -> & ->).
  simpl. now rewrite lookup_insert_eq.
Qed.

(** The local commit issues no remote request. *)
Lemma storeCompleteCheckin_is_local
    env userCode location imageBlob submissionId w rec w1 :
  storeCompleteCheckin env userCode location imageBlob submissionId w = Ok rec w1 ->
  exists local,
    trace w1 = trace w ++ local
    /\ all_local local = true
    /\ persistence_attempts local = [IdbAdd (ck_imageId rec); LsSetItem].
Proof.
  intros H. apply storeCompleteCheckin_Ok in H.
  apply storeCompleteCheckin_try_Ok in H as (w0 & Hdb & _ & _ & _ & -> & ->).
  apply ensureDB_Ok in Hdb as (_ & _ & _ & _ & ->).
  simpl. eexists. split; [rewrite <- !app_assoc; reflexivity|].
  now destruct (db w).
Qed.

(** When the local commit fails, [storeCheckinWithSync] throws and no
    remote request has been made. *)
Lemma storeCheckinWithSync_local_failure
    env userCode location imageBlob submissionId w e w1 :
  storeCompleteCheckin env userCode location imageBlob submissionId w = Err e w1 ->
  storeCheckinWithSync env userCode location imageBlob submissionId w
  = Err (new_Error "Failed to store checkin locally") w1.
Proof.
  intros H. unfold storeCheckinWithSync, try_catch, bind. now rewrite H.
Qed.

(** C2.  Whenever the local commit succeeds, [storeCheckinWithSync]
    returns normally, with the local id.  The local requests come first
    in the trace and every remote request after them; a remote failure
    (backend unreachable, insert failed, upload failed) yields
    [synced = false] and never an exception; the remote attempt leaves
    both local stores untouched, so that afterwards the committed
    record is the last of the index and its image reference still
    resolves to the submitted blob. *)
Theorem storeCheckinWithSync_local_first
    env userCode location imageBlob submissionId w rec w1 :
  storeCompleteCheckin env userCode location imageBlob submissionId w = Ok rec w1 ->
  exists out w2 local remote p,
    storeCheckinWithSync env userCode location imageBlob submissionId w = Ok out w2
    /\ localId out = ck_id rec
    /\ trace w2 = trace w ++ local ++ remote
    /\ all_local local = true
    /\ persistence_attempts local = [IdbAdd (ck_imageId rec); LsSetItem]
    /\ all_remote remote = true
    /\ (remote_failure env w1 = true -> synced out = false)
    /\ images w2 = images w1
    /\ selfie_checkins w2 = selfie_checkins w1
    /\ last (getAllCheckins w2) = Some p
    /\ ck_id p = localId out
    /\ getCheckin (localId out) w2 <> None
    /\ img_blob <$> images w2 !! ck_imageId p = Some imageBlob.
Proof.
  intros H.
  destruct (storeCheckinWithSync_after_commit _ _ _ _ _ _ _ _ H)
    as (out & w2 & remote & Hrun & Hid & Hsynced & Htrace & Hremote & Him & Hck).
  destruct (storeCompleteCheckin_is_local _ _ _ _ _ _ _ _ H)
    as (local & Hlocal & Hall & Hpers).
  destruct (storeCompleteCheckin_committed _ _ _ _ _ _ _ _ H)
    as (p & Hlast & Hpid & Hpimg & Hblob).
  assert (Hlast2 : last (getAllCheckins w2) = Some p).
  { unfold getAllCheckins. rewrite Hck. exact Hlast. }
  exists out, w2, local, remote, p.
  split; [exact Hrun|]. split; [exact Hid|].
  split; [rewrite Htrace, Hlocal; now rewrite app_assoc|].
  split; [exact Hall|]. split; [exact Hpers|]. split; [exact Hremote|].
  split; [intros Hfail; now rewrite Hsynced, Hfail|].
  split; [exact Him|]. split; [exact Hck|]. split; [exact Hlast2|].
  split; [congruence|]. split.
  - unfold getCheckin. intros Hnone.
    assert (Hin : In p (getAllCheckins w2)).
    { apply last_Some in Hlast2 as (l' & ->). apply in_or_app. right. now left. }
    pose proof (List.find_none _ _ Hnone p Hin) as Hf. simpl in Hf.
    apply bool_decide_eq_false in Hf. congruence.
  - now rewrite Him, Hpimg.
Qed.

Lemma storeCheckinWithSync_local_first_witness :
  exists w2 p,
    remote_failure offline one_checkin = true
    /\ storeCheckinWithSync offline "FIELD_01" new_york selfie "VER-ABC123" fresh
       = Ok {| localId := "checkin_1700000000006_4fzyo82mv"; synced := false;
               sync_error := Some "Server not available" |} w2
    /\ trace w2 = [IdbOpen; IdbAdd "img_1700000000001_4fzyo82mv"; LsSetItem;
                   HttpGet "/health"]
    /\ last (getAllCheckins w2) = Some p
    /\ ck_id p = "checkin_1700000000006_4fzyo82mv"
    /\ img_blob <$> images w2 !! ck_imageId p = Some selfie.
Proof.
  destruct (storeCheckinWithSync_local_first offline "FIELD_01" new_york selfie
              "VER-ABC123" fresh _ _ eq_refl)
    as (out & w2 & local & remote & p & Hrun & Hid & Htrace & _ & _ & _ & _ & _ & _
        & Hlast & Hpid & _ & Himg).
  vm_compute in Hrun. injection Hrun as <- <-.
  eexists _, p. split; [reflexivity|]. split; [reflexivity|].
  split; [reflexivity|]. split; [exact Hlast|]. split; [exact Hpid | exact Himg].
Defined.

(* ===================================================================== *)
(** * Properties of the remote statistics *)
(* ===================================================================== *)

(** The size of the set of user codes is the number of distinct
    ones. *)
Lemma distinct_remove_dups codes :
  distinct codes = length (remove_dups codes).
Proof.
  unfold distinct.
  rewrite <- (size_list_to_set (C := gset string) (remove_dups codes))
    by apply NoDup_remove_dups.
  f_equal. apply set_eq. intros x.
  rewrite !elem_of_list_to_set. symmetry. apply elem_of_remove_dups.
Qed.

(** In UTC a day starts at a multiple of 24 hours. *)
Lemma utc_local_days : LocalDays offline.
Proof.
  assert (Hday : 0 < msPerDay) by reflexivity.
  split; simpl.
  - intros t. pose proof (Z.mod_pos_bound t msPerDay Hday). lia.
  - intros t.
    replace ((t - t mod msPerDay) mod msPerDay) with 0; [lia|].
    rewrite Zminus_mod_idemp_r, Z.sub_diag. reflexivity.
  - intros s t Hst.
    rewrite (Z.mod_eq s msPerDay), (Z.mod_eq t msPerDay) by lia.
    pose proof (Z.div_le_mono s t msPerDay Hday Hst). nia.
Qed.

(** Among documents none of which is stamped in a later day, the
    documents stamped at or after the start of today are the documents
    stamped today. *)
Lemma since_midnight_is_today env now (docs : list FirebaseCheckin) :
  LocalDays env ->
  Forall (fun c => not_after_today env now c = true) docs ->
  length (List.filter (fun c => date_ge (new_Date (fb_timestamp c))
                                  (startOfLocalDay env now)) docs)
  = created_today_count env now docs.
Proof.
  intros [Hbefore Hfixed Hmono]. unfold created_today_count.
  induction 1 as [|c rest Hc _ IH]; [reflexivity|].
  simpl. unfold created_today, not_after_today in *.
  destruct (new_Date (fb_timestamp c)) as [t|]; simpl; [|exact IH].
  apply Z.leb_le in Hc.
  destruct (startOfLocalDay env now <=? t) eqn:Hle.
  - apply Z.leb_le in Hle. pose proof (Hmono _ _ Hle) as Hm. rewrite Hfixed in Hm.
    rewrite (proj2 (Z.eqb_eq _ _)) by lia. simpl. now rewrite IH.
  - apply Z.leb_gt in Hle. pose proof (Hbefore t).
    rewrite (proj2 (Z.eqb_neq _ _)) by lia. exact IH.
Qed.

(** The run of the Firebase [getStats] when the query answers. *)
Lemma Firebase_getStats_run env w docs :
  firestore env (tick w) = GetDocsReturns docs ->
  Firebase.getStats env w =
    Ok {| rs_totalCheckins := length docs;
          rs_uniqueUsers := distinct (fb_userCode <$> docs);
          rs_todayCheckins :=
            length (List.filter
                      (fun c => date_ge (new_Date (fb_timestamp c))
                                  (startOfLocalDay env (clock env (1 + tick w)))) docs);
          rs_thisWeekCheckins :=
            length (List.filter
                      (fun c => date_ge (new_Date (fb_timestamp c))
                                  (sevenDaysEarlier env (clock env (2 + tick w)))) docs) |}
       (advance (advance (advance (note FirestoreGetDocs w)))).
Proof.
  intros H.
  unfold Firebase.getStats, Firebase.getAllCheckins, Firebase.getDocs, try_catch, bind,
    Date_now, ret.
  now rewrite H.
Qed.

(** C8, as the specification words it, fails: a document stamped two
    days ahead is counted as today's, although it was not created
    within the current calendar day. *)
Lemma future_record_counts_as_today :
  exists stats w',
    Firebase.getStats skewed fresh = Ok stats w'
    /\ rs_todayCheckins stats = 1%nat
    /\ created_today_count skewed (clock skewed 1) fast_clock_docs = 0%nat
    /\ rs_todayCheckins stats <> created_today_count skewed (clock skewed 1) fast_clock_docs.
Proof.
  eexists _, _. split; [vm_compute; reflexivity|].
  split; [reflexivity|]. split; [reflexivity|]. discriminate.
Qed.

(** C8, amended.  Over the documents the remote store returns,
    [getStats] reports their number as the total, the number of
    distinct user codes as [uniqueUsers], and as [todayCheckins] the
    number of documents whose timestamp is a valid date at or after
    the local midnight that began the current day, the instant that
    [setHours(0, 0, 0, 0)] gives in the time zone of the device; there
    is no upper bound.  Where the days of the time zone follow one
    another in order, that is the number created within the current
    calendar day whenever no document is stamped in a later day; so
    three documents of two users, one of them of today and none of a
    later day, give total 3, uniqueUsers 2, todayCheckins 1. *)
Theorem Firebase_getStats_counts env w docs :
  firestore env (tick w) = GetDocsReturns docs ->
  exists stats w',
    Firebase.getStats env w = Ok stats w'
    /\ rs_totalCheckins stats = length docs
    /\ rs_uniqueUsers stats = length (remove_dups (fb_userCode <$> docs))
    /\ rs_todayCheckins stats
       = length (List.filter
                   (fun c => date_ge (new_Date (fb_timestamp c))
                               (startOfLocalDay env (clock env (1 + tick w)))) docs)
    /\ (LocalDays env ->
        Forall (fun c => not_after_today env (clock env (1 + tick w)) c = true) docs ->
        rs_todayCheckins stats = created_today_count env (clock env (1 + tick w)) docs)
    /\ (LocalDays env ->
        Forall (fun c => not_after_today env (clock env (1 + tick w)) c = true) docs ->
        length docs = 3%nat ->
        length (remove_dups (fb_userCode <$> docs)) = 2%nat ->
        created_today_count env (clock env (1 + tick w)) docs = 1%nat ->
        rs_totalCheckins stats = 3%nat /\ rs_uniqueUsers stats = 2%nat
        /\ rs_todayCheckins stats = 1%nat).
Proof.
  intros H. rewrite (Firebase_getStats_run env w docs H).
  eexists _, _. split; [reflexivity|]. simpl.
  split; [reflexivity|]. split; [apply distinct_remove_dups|]. split; [reflexivity|].
  split.
  - intros Hdays Hpast. now apply since_midnight_is_today.
  - intros Hdays Hpast H3 H2 H1. rewrite distinct_remove_dups.
    rewrite (since_midnight_is_today _ _ _ Hdays Hpast). auto.
Qed.

Lemma three_docs_not_after_today :
  Forall (fun c => not_after_today offline (clock offline 1) c = true) three_docs.
Proof. repeat constructor. Qed.

Lemma Firebase_getStats_counts_witness :
  exists w',
    Firebase.getStats offline fresh
    = Ok {| rs_totalCheckins := 3; rs_uniqueUsers := 2;
            rs_todayCheckins := 1; rs_thisWeekCheckins := 2 |} w'
    /\ created_today_count offline (clock offline 1) three_docs = 1%nat.
Proof.
  destruct (Firebase_getStats_counts offline fresh three_docs eq_refl)
    as (stats & w' & Hrun & _ & _ & _ & Htoday & _).
  specialize (Htoday utc_local_days three_docs_not_after_today).
  exists w'. rewrite Hrun. vm_compute in Hrun. injection Hrun as <- _.
  split; [reflexivity|]. symmetry. exact Htoday.
Defined.

(** Neither adapter's [getStats] ever throws. *)
Lemma Firebase_getStats_total env w :
  exists stats w', Firebase.getStats env w = Ok stats w'.
Proof.
  unfold Firebase.getStats, Firebase.getAllCheckins, Firebase.getDocs, try_catch, bind,
    Date_now, ret, throw.
  destruct (firestore env (tick w)); eexists _, _; reflexivity.
Qed.

Lemma Supabase_getStats_total env w :
  exists stats w', Supabase.getStats env w = Ok stats w'.
Proof.
  unfold Supabase.getStats, try_catch.
  match goal with |- context [match ?body w with _ => _ end] => destruct (body w) end;
    eexists _, _; reflexivity.
Qed.

(** C9.  When the backend fails during the statistics query (the
    Firestore query rejects, the Supabase query answers with an error),
    [getStats] does not throw: it resolves to statistics that are all
    zero, which is also what it resolves to over an empty store. *)
Theorem getStats_swallows_backend_failure env w e env' w' e' :
  firestore env (tick w) = GetDocsThrows e ->
  sb_error (supabase env' (tick w')) = Some e' ->
  Firebase.getStats env w = Ok zero_stats (advance (note FirestoreGetDocs w))
  /\ Supabase.getStats env' w' = Ok zero_stats (advance (note SupabaseSelect w'))
  /\ (forall env0 w0, firestore env0 (tick w0) = GetDocsReturns [] ->
        exists w1, Firebase.getStats env0 w0 = Ok zero_stats w1)
  /\ (forall env0 w0, supabase env0 (tick w0) = mkSupabaseOutcome (Some []) None ->
        exists w1, Supabase.getStats env0 w0 = Ok zero_stats w1).
Proof.
  intros Hfb Hsb. split; [|split; [|split]].
  - unfold Firebase.getStats, Firebase.getAllCheckins, Firebase.getDocs, try_catch, bind,
      throw, ret.
    now rewrite Hfb.
  - unfold Supabase.getStats, Supabase.select, try_catch, bind, throw, ret.
    now rewrite Hsb.
  - intros env0 w0 H0. rewrite (Firebase_getStats_run env0 w0 [] H0).
    eexists. reflexivity.
  - intros env0 w0 H0.
    unfold Supabase.getStats, Supabase.select, try_catch, bind, Date_now, ret.
    rewrite H0. simpl. eexists. reflexivity.
Qed.

Lemma getStats_swallows_backend_failure_witness :
  Firebase.getStats backends_down fresh
  = Ok zero_stats (advance (note FirestoreGetDocs fresh))
  /\ Supabase.getStats backends_down fresh
     = Ok zero_stats (advance (note SupabaseSelect fresh)).
Proof.
  destruct (getStats_swallows_backend_failure backends_down fresh network_down
              backends_down fresh network_down eq_refl eq_refl) as (Hfb & Hsb & _).
  split; [exact Hfb | exact Hsb].
Defined.

(* ===================================================================== *)
(** * Further properties of the local store *)
(* ===================================================================== *)

(** The catch of [storeCompleteCheckin] changes the thrown value, not
    the store. *)
Lemma storeCompleteCheckin_world env userCode location imageBlob submissionId w :
  world_of (storeCompleteCheckin env userCode location imageBlob submissionId w)
  = world_of (storeCompleteCheckin_try env userCode location imageBlob submissionId w).
Proof.
  unfold storeCompleteCheckin, try_catch, throw.
  now destruct (storeCompleteCheckin_try _ _ _ _ _ _).
Qed.

(** X1.  When the blob write of [storeCompleteCheckin] succeeds and the
    metadata write then fails, the call fails and nothing is undone:
    the blob stays in the image store under its new key, orphaned,
    while the index is what it was. *)
Theorem metadata_failure_orphans_blob
    env userCode location imageBlob submissionId w w0 e :
  ensureDB env w = Ok tt w0 ->
  fault env (3 + tick w0) = None ->
  images w0 !! image_key env (tick w0) = None ->
  fault env (7 + tick w0) = Some e ->
  exists w',
    storeCompleteCheckin env userCode location imageBlob submissionId w
    = Err (new_Error "Failed to store check-in data") w'
    /\ img_blob <$> images w' !! image_key env (tick w0) = Some imageBlob
    /\ size (images w') = S (size (images w))
    /\ getAllCheckins w' = getAllCheckins w.
Proof.
  intros Hdb Hf1 Hfresh Hf2.
  unfold storeCompleteCheckin, try_catch, throw, storeCompleteCheckin_try, storeImage,
    storeCheckin, idb_add, request, Date_now, Math_random36, bind, ret.
  rewrite Hdb. simpl in *. rewrite Hf1. simpl.
  unfold image_key in Hfresh. simpl in Hfresh. rewrite Hfresh. simpl.
  rewrite Hf2. simpl.
  apply ensureDB_Ok in Hdb as (_ & Him & Hck & _).
  eexists. split; [reflexivity|]. simpl.
  split; [unfold image_key; simpl; now rewrite lookup_insert_eq|].
  split; [rewrite map_size_insert_None by exact Hfresh; now rewrite Him|].
  unfold getAllCheckins. simpl. now rewrite Hck.
Qed.

Lemma metadata_failure_orphans_blob_witness :
  exists w',
    storeCompleteCheckin metadata_full "FIELD_01" new_york selfie "VER-ABC123" fresh
    = Err (new_Error "Failed to store check-in data") w'
    /\ img_blob <$> images w' !! "img_1700000000001_4fzyo82mv" = Some selfie
    /\ size (images w') = 1%nat
    /\ getAllCheckins w' = [].
Proof.
  exact (metadata_failure_orphans_blob metadata_full "FIELD_01" new_york selfie
           "VER-ABC123" fresh (set_db true (advance (note IdbOpen fresh))) quota_exceeded
           eq_refl eq_refl eq_refl eq_refl).
Defined.

(** X2.  The local store is append-only under [storeCompleteCheckin]:
    whether the call succeeds or fails, every blob stored before is
    still stored, unchanged, under its key, and the index still begins
    with all the records it had, in their order. *)
Theorem storeCompleteCheckin_append_only
    env userCode location imageBlob submissionId w :
  let w' := world_of (storeCompleteCheckin env userCode location imageBlob submissionId w) in
  (forall k im, images w !! k = Some im -> images w' !! k = Some im)
  /\ exists added, getAllCheckins w' = getAllCheckins w ++ added.
Proof.
  intros w'. subst w'. rewrite storeCompleteCheckin_world.
  set (w' := world_of (storeCompleteCheckin_try env userCode location imageBlob
                         submissionId w)).
  assert (H : (forall k im, images w !! k = Some im -> images w' !! k = Some im)
              /\ (selfie_checkins w' = selfie_checkins w
                  \/ exists c, selfie_checkins w' = Some (getAllCheckins w ++ [c]))).
  { subst w'.
    unfold storeCompleteCheckin_try, storeImage, storeCheckin, idb_add, ensureDB, initDB,
      request, Date_now, Math_random36, bind, ret.
    destruct (db w) eqn:Hdb; split_run env;
      (split;
       [ intros k im Hk; simpl;
         first [ exact Hk
               | rewrite lookup_insert_ne; [exact Hk | intros <-; simpl in *; congruence] ]
       | simpl; first [ left; reflexivity | right; eexists; reflexivity ] ]). }
  destruct H as [Him [Hsame | [c Hc]]]; (split; [exact Him|]).
  - exists []. rewrite app_nil_r. exact (getAllCheckins_same w w' Hsame).
  - eexists. exact (getAllCheckins_written w w' c Hc).
Qed.

(** X3.  When the key drawn for the image is already taken,
    [storeCompleteCheckin] fails after the one rejected blob write: the
    blob stored under that key is not overwritten, no record is
    appended, and both stores are exactly what they were. *)
Theorem key_collision_rejects_submit
    env userCode location imageBlob submissionId w w0 old :
  ensureDB env w = Ok tt w0 ->
  fault env (3 + tick w0) = None ->
  images w0 !! image_key env (tick w0) = Some old ->
  exists w',
    storeCompleteCheckin env userCode location imageBlob submissionId w
    = Err (new_Error "Failed to store check-in data") w'
    /\ images w' = images w
    /\ selfie_checkins w' = selfie_checkins w
    /\ persistence_attempts (trace w')
       = persistence_attempts (trace w) ++ [IdbAdd (image_key env (tick w0))].
Proof.
  intros Hdb Hf1 Htaken.
  pose proof (ensureDB_persists_nothing _ _ _ _ Hdb) as Hp.
  unfold storeCompleteCheckin, try_catch, throw, storeCompleteCheckin_try, storeImage,
    idb_add, request, Date_now, Math_random36, bind, ret.
  rewrite Hdb. simpl in *. rewrite Hf1. simpl.
  unfold image_key in Htaken. simpl in Htaken. rewrite Htaken. simpl.
  apply ensureDB_Ok in Hdb as (_ & Him & Hck & _).
  eexists. split; [reflexivity|]. simpl.
  split; [exact Him|]. split; [exact Hck|].
  rewrite persistence_attempts_app, Hp. reflexivity.
Qed.

Lemma key_collision_rejects_submit_witness :
  exists w',
    storeCompleteCheckin frozen "FIELD_02" new_york (mkBlob "image/png" []) "VER-XYZ789"
      frozen_once
    = Err (new_Error "Failed to store check-in data") w'
    /\ img_blob <$> images w' !! "img_1700000000000_4fzyo82mv" = Some selfie
    /\ length (getAllCheckins w') = 1%nat.
Proof.
  destruct (key_collision_rejects_submit frozen "FIELD_02" new_york (mkBlob "image/png" [])
              "VER-XYZ789" frozen_once frozen_once
              (mkStoredImage "img_1700000000000_4fzyo82mv" selfie 1700000000000)
              eq_refl eq_refl eq_refl) as (w' & Hrun & Him & Hck & _).
  exists w'. split; [exact Hrun|]. unfold getAllCheckins. rewrite Him, Hck.
  split; reflexivity.
Defined.

(** What a read does to the stores and to the clock of requests,
    whatever its outcome. *)
Lemma getImage_outcome env imageId w :
  match getImage env imageId w with
  | Ok blob w1 =>
      blob = (img_blob <$> images w !! imageId)
      /\ images w1 = images w /\ selfie_checkins w1 = selfie_checkins w
      /\ (tick w <= tick w1)%nat
  | Err e w1 =>
      images w1 = images w /\ selfie_checkins w1 = selfie_checkins w
      /\ exists n, (tick w <= n)%nat /\ fault env n = Some e
  end.
Proof.
  unfold getImage, bind, ensureDB, initDB, request.
  destruct (db w); simpl.
  - destruct (fault env (tick w)) eqn:Hf; simpl; eauto 8.
  - destruct (fault env (tick w)) eqn:Hf; simpl; [eauto 8|].
    destruct (fault env (S (tick w))) eqn:Hf'; simpl; eauto 8.
Qed.

(** X4.  Reading an image key under which nothing is stored is not an
    error: with no storage request failing, [getImage] resolves to
    [null], and it leaves both stores as they are. *)
Theorem getImage_missing_key env imageId w :
  storage_sound env w ->
  images w !! imageId = None ->
  exists w1,
    getImage env imageId w = Ok None w1
    /\ images w1 = images w
    /\ selfie_checkins w1 = selfie_checkins w.
Proof.
  intros Hs Hnone.
  destruct (getImage_run env imageId w Hs) as (w1 & Hrun & Him & Hck & _).
  exists w1. rewrite Hrun, Hnone. auto.
Qed.

Lemma getImage_missing_key_witness :
  exists w1,
    getImage offline "img_1_gone" one_checkin = Ok None w1
    /\ images w1 = images one_checkin
    /\ selfie_checkins w1 = selfie_checkins one_checkin.
Proof.
  exact (getImage_missing_key offline "img_1_gone" one_checkin
           (offline_storage_sound one_checkin) eq_refl).
Defined.

(** X5.  [getCheckin] answers from the index by id: what it returns is
    a record of the index with the id asked for, and it returns [null]
    exactly when no record of the index has that id. *)
Theorem getCheckin_finds_by_id id w :
  (forall r, getCheckin id w = Some r -> In r (getAllCheckins w) /\ ck_id r = id)
  /\ (getCheckin id w = None <-> forall r, In r (getAllCheckins w) -> ck_id r <> id).
Proof.
  unfold getCheckin. split; [|split].
  - intros r H. apply List.find_some in H as (Hin & Hid).
    split; [exact Hin|]. now apply bool_decide_eq_true in Hid.
  - intros H r Hin. pose proof (List.find_none _ _ H r Hin) as Hf. simpl in Hf.
    now apply bool_decide_eq_false in Hf.
  - intros H. destruct (List.find _ _) as [r|] eqn:Hfind; [|reflexivity].
    apply List.find_some in Hfind as (Hin & Hid).
    apply bool_decide_eq_true in Hid. now destruct (H r Hin).
Qed.

(** [find] over a list with one more element at the end. *)
Lemma find_snoc {A} (f : A -> bool) (l : list A) (x : A) :
  List.find f (l ++ [x]) =
    match List.find f l with
    | Some y => Some y
    | None => if f x then Some x else None
    end.
Proof.
  induction l as [|a l IH]; simpl; [reflexivity|].
  destruct (f a); [reflexivity | exact IH].
Qed.

(** X6.  Append then look up: after [storeCheckin] has stored a record
    under an id that no earlier record has, [getCheckin] of that id
    returns the stored record as JSON hands it back: the input with
    the id, its strings as they were and [null] in place of every
    number that is not finite; so exactly the input with the id when
    all its numbers are finite (and not -0).  [getCheckin] of any
    other id answers as before. *)
Theorem storeCheckin_then_getCheckin env data w checkinId w' :
  storeCheckin env data w = Ok checkinId w' ->
  getCheckin checkinId w = None ->
  getCheckin checkinId w' = Some (json_checkin (with_id checkinId data))
  /\ (plain_input data = true ->
      getCheckin checkinId w' = Some (with_id checkinId data))
  /\ forall id, id <> checkinId -> getCheckin id w' = getCheckin id w.
Proof.
  intros Hrun Hnew. apply storeCheckin_appends in Hrun.
  assert (Hget : getCheckin checkinId w'
                 = Some (json_checkin (with_id checkinId data))).
  { unfold getCheckin in *. rewrite Hrun, find_snoc, Hnew. simpl.
    now rewrite bool_decide_eq_true_2. }
  split; [exact Hget|]. split.
  - intros Hplain. rewrite Hget. f_equal.
    unfold plain_input in Hplain. apply andb_prop in Hplain as [Hts Hloc].
    unfold json_checkin, with_id. simpl.
    now rewrite (plain_json _ Hts), (plain_location_json _ Hloc).
  - intros id Hne. unfold getCheckin. rewrite Hrun, find_snoc. simpl.
    rewrite (bool_decide_eq_false_2 (checkinId = id)) by congruence.
    now case_match.
Qed.

Lemma storeCheckin_then_getCheckin_witness :
  exists w',
    storeCheckin offline (mkCheckinInput "FIELD_02" 7 new_york "img_7_x" "VER-XYZ789")
      one_checkin
    = Ok "checkin_1700000000010_4fzyo82mv" w'
    /\ getCheckin "checkin_1700000000010_4fzyo82mv" w'
       = Some (mkCheckin "checkin_1700000000010_4fzyo82mv" "FIELD_02" 7 new_york
                 "img_7_x" "VER-XYZ789").
Proof.
  eexists. split; [vm_compute; reflexivity|].
  destruct (storeCheckin_then_getCheckin offline
              (mkCheckinInput "FIELD_02" 7 new_york "img_7_x" "VER-XYZ789")
              one_checkin _ _ eq_refl eq_refl) as (_ & Hplain & _).
  exact (Hplain eq_refl).
Defined.

(** X7.  Record ids are not checked for uniqueness.  When [storeCheckin]
    draws an id that an earlier record already has, the new record is
    appended all the same, but [getCheckin] of that id keeps returning
    the earlier record: the new one cannot be reached by id. *)
Theorem storeCheckin_duplicate_id_is_shadowed env data w checkinId w' old :
  storeCheckin env data w = Ok checkinId w' ->
  getCheckin checkinId w = Some old ->
  getCheckin checkinId w' = Some old
  /\ getAllCheckins w' = getAllCheckins w ++ [json_checkin (with_id checkinId data)].
Proof.
  intros Hrun Hold. apply storeCheckin_appends in Hrun.
  split; [|exact Hrun].
  unfold getCheckin in *. now rewrite Hrun, find_snoc, Hold.
Qed.

Lemma storeCheckin_duplicate_id_is_shadowed_witness :
  exists w2,
    storeCheckin frozen (mkCheckinInput "FIELD_02" 2 new_york "img_b" "VER-B") frozen_index
    = Ok "checkin_1700000000000_4fzyo82mv" w2
    /\ length (getAllCheckins frozen_index) = 1%nat
    /\ length (getAllCheckins w2) = 2%nat
    /\ getCheckin "checkin_1700000000000_4fzyo82mv" w2
       = Some (mkCheckin "checkin_1700000000000_4fzyo82mv" "FIELD_01" 1 new_york
                 "img_a" "VER-A").
Proof.
  eexists. split; [vm_compute; reflexivity|].
  split; [reflexivity|]. split; [reflexivity|].
  exact (proj1 (storeCheckin_duplicate_id_is_shadowed frozen
                  (mkCheckinInput "FIELD_02" 2 new_york "img_b" "VER-B")
                  frozen_index "checkin_1700000000000_4fzyo82mv" _
                  (mkCheckin "checkin_1700000000000_4fzyo82mv" "FIELD_01" 1 new_york
                     "img_a" "VER-A")
                  eq_refl eq_refl)).
Defined.

(* ===================================================================== *)
(** * Further properties of the export and of clearing *)
(* ===================================================================== *)

(** X8.  Export completeness.  When every record's image reference
    resolves and no storage request fails, [exportData] returns every
    record of the index, and its image map holds, for every record, the
    data URL of the blob the record refers to, and nothing under any
    other key.  Both stores are left as they are. *)
Theorem exportData_complete env w :
  (forall r, In r (getAllCheckins w) -> is_Some (images w !! ck_imageId r)) ->
  storage_sound env w ->
  exists snap w',
    exportData env w = Ok snap w'
    /\ snap_checkins snap = getAllCheckins w
    /\ (forall r, In r (getAllCheckins w) ->
          exists im, images w !! ck_imageId r = Some im
                     /\ snap_images snap !! ck_imageId r
                        = Some (readAsDataURL env (img_blob im)))
    /\ (forall k, is_Some (snap_images snap !! k) ->
          exists r, In r (getAllCheckins w) /\ ck_imageId r = k)
    /\ images w' = images w
    /\ selfie_checkins w' = selfie_checkins w.
Proof.
  intros Hall Hs.
  unfold exportData, bind, ret.
  destruct (export_loop_run env (getAllCheckins w) ∅ w Hs) as (w1 & -> & Him & Hck).
  eexists _, w1. split; [reflexivity|]. simpl.
  split; [reflexivity|]. split; [|split; [|split; assumption]].
  - intros r Hin. destruct (Hall r Hin) as [im Him'].
    exists im. split; [exact Him'|].
    rewrite exported_lookup, Him'.
    rewrite bool_decide_eq_true_2; [reflexivity|].
    apply list_elem_of_fmap. exists r. split; [reflexivity|].
    now apply list_elem_of_In.
  - intros k [v Hv]. rewrite exported_lookup, lookup_empty in Hv.
    destruct (bool_decide _) eqn:Hb; [|discriminate].
    apply bool_decide_eq_true in Hb. apply list_elem_of_fmap in Hb as (r & -> & Hin).
    exists r. split; [now apply list_elem_of_In | reflexivity].
Qed.

Lemma one_checkin_resolves r :
  In r (getAllCheckins one_checkin) -> is_Some (images one_checkin !! ck_imageId r).
Proof. intros [<-|[]]. eexists. reflexivity. Defined.

Lemma exportData_complete_witness :
  exists snap w',
    exportData offline one_checkin = Ok snap w'
    /\ length (snap_checkins snap) = 1%nat
    /\ snap_images snap !! "img_1700000000001_4fzyo82mv" = Some "data:image/jpeg;base64,".
Proof.
  destruct (exportData_complete offline one_checkin one_checkin_resolves
              (offline_storage_sound one_checkin))
    as (snap & w' & Hrun & Hck & _).
  exists snap, w'. split; [exact Hrun|].
  vm_compute in Hrun. injection Hrun as <- _. split; reflexivity.
Defined.

(** The export loop changes no store, and fails only with the error of
    a storage request that failed. *)
Lemma export_loop_outcome env checkins : forall acc w,
  match export_loop env checkins acc w with
  | Ok _ w1 => images w1 = images w /\ selfie_checkins w1 = selfie_checkins w
  | Err e w1 =>
      images w1 = images w /\ selfie_checkins w1 = selfie_checkins w
      /\ exists n, (tick w <= n)%nat /\ fault env n = Some e
  end.
Proof.
  induction checkins as [|checkin rest IH]; intros acc w; simpl; [auto|].
  unfold bind.
  pose proof (getImage_outcome env (ck_imageId checkin) w) as Hget.
  destruct (getImage env (ck_imageId checkin) w) as [blob w1|e w1]; [|exact Hget].
  destruct Hget as (_ & Him & Hck & Hle).
  assert (Hnext : forall acc',
            match export_loop env rest acc' w1 with
            | Ok _ w2 => images w2 = images w /\ selfie_checkins w2 = selfie_checkins w
            | Err e w2 =>
                images w2 = images w /\ selfie_checkins w2 = selfie_checkins w
                /\ exists n, (tick w <= n)%nat /\ fault env n = Some e
            end).
  { intros acc'. specialize (IH acc' w1).
    destruct (export_loop env rest acc' w1) as [m w2|e w2].
    - destruct IH as (-> & ->). auto.
    - destruct IH as (-> & -> & n & Hn & Hf). repeat split; auto.
      exists n. split; [lia | exact Hf]. }
  destruct blob; apply Hnext.
Qed.

(** X9.  [exportData] is aborted by nothing but a failing storage
    request: when it fails, the error it fails with is the error of an
    IndexedDB request issued during the export, passed on unchanged;
    and a failed export has changed neither store. *)
Theorem exportData_fails_only_on_fault env w e w' :
  exportData env w = Err e w' ->
  (exists n, (tick w <= n)%nat /\ fault env n = Some e)
  /\ images w' = images w
  /\ selfie_checkins w' = selfie_checkins w.
Proof.
  unfold exportData, bind, ret.
  pose proof (export_loop_outcome env (getAllCheckins w) ∅ w) as Hloop.
  destruct (export_loop env (getAllCheckins w) ∅ w) as [m w1|e1 w1]; [discriminate|].
  intros [= <- <-]. destruct Hloop as (Him & Hck & Hn). auto.
Qed.

Lemma exportData_fails_only_on_fault_witness :
  exists w',
    exportData disk_full one_checkin = Err quota_exceeded w'
    /\ images w' = images one_checkin
    /\ selfie_checkins w' = selfie_checkins one_checkin.
Proof.
  eexists. split; [vm_compute; reflexivity|].
  exact (proj2 (exportData_fails_only_on_fault disk_full one_checkin quota_exceeded _
                  eq_refl)).
Defined.

(** X10.  [clearAllData] is not atomic.  It removes the index first and
    clears the image store afterwards, so when it fails (the database
    does not open, or the clear request is refused) the index is
    already gone while every blob is still stored. *)
Theorem clearAllData_failure_keeps_blobs env w e w' :
  clearAllData env w = Err e w' ->
  selfie_checkins w' = None
  /\ getAllCheckins w' = []
  /\ images w' = images w.
Proof.
  unfold clearAllData, ls_removeItem, bind, ensureDB, initDB, request, getAllCheckins.
  simpl. destruct (db w); simpl.
  - destruct (fault env _); [|discriminate]. intros [= <- <-]. simpl. auto.
  - destruct (fault env _); [intros [= <- <-]; simpl; auto|]. simpl.
    destruct (fault env _); [|discriminate]. intros [= <- <-]. simpl. auto.
Qed.

Lemma clearAllData_failure_keeps_blobs_witness :
  exists w',
    clearAllData disk_full one_checkin = Err quota_exceeded w'
    /\ getAllCheckins one_checkin <> []
    /\ getAllCheckins w' = []
    /\ size (images w') = 1%nat.
Proof.
  eexists. split; [vm_compute; reflexivity|]. split; [discriminate|].
  destruct (clearAllData_failure_keeps_blobs disk_full one_checkin quota_exceeded _ eq_refl)
    as (_ & Hck & Him).
  split; [exact Hck|]. exact (f_equal size Him).
Defined.

(** X11.  After a successful [clearAllData] nothing can be read back:
    the index is empty, [getCheckin] returns [null] for every id,
    [getImage] resolves to [null] for every key (unless the read
    request itself fails), and [exportData] returns the empty snapshot
    without a single request. *)
Theorem clear_then_reads_nothing env w u w' :
  clearAllData env w = Ok u w' ->
  getAllCheckins w' = []
  /\ (forall id, getCheckin id w' = None)
  /\ (forall k, getImage env k w' =
                  match fault env (tick w') with
                  | None => Ok None (advance (note (IdbGet k) w'))
                  | Some e => Err e (advance (note (IdbGet k) w'))
                  end)
  /\ exportData env w' = Ok {| snap_checkins := []; snap_images := ∅ |} w'.
Proof.
  intros H. apply clearAllData_Ok in H as (Hdb & Him & Hck).
  assert (Hempty : getAllCheckins w' = []) by (unfold getAllCheckins; now rewrite Hck).
  split; [exact Hempty|]. split; [|split].
  - intros id. unfold getCheckin. now rewrite Hempty.
  - intros k. unfold getImage, bind, request. rewrite ensureDB_opened by exact Hdb.
    destruct (fault env (tick w')); [reflexivity|]. simpl. now rewrite Him, lookup_empty.
  - unfold exportData. now rewrite Hempty.
Qed.

Lemma clear_then_reads_nothing_witness :
  exists w',
    clearAllData offline one_checkin = Ok tt w'
    /\ getCheckin "checkin_1700000000006_4fzyo82mv" one_checkin <> None
    /\ getCheckin "checkin_1700000000006_4fzyo82mv" w' = None
    /\ getImage offline "img_1700000000001_4fzyo82mv" w'
       = Ok None (advance (note (IdbGet "img_1700000000001_4fzyo82mv") w')).
Proof.
  eexists. split; [vm_compute; reflexivity|]. split; [discriminate|].
  destruct (clear_then_reads_nothing offline one_checkin tt _ eq_refl)
    as (_ & Hget & Himg & _).
  split; [apply Hget | apply Himg].
Defined.

(** X12.  Submit then count: after a successful [storeCompleteCheckin],
    [getStorageStats] (its count request not failing) reports one
    check-in more and one image more than were stored before. *)
Theorem submit_then_stats_counts_one_more
    env userCode location imageBlob submissionId w rec w' :
  storeCompleteCheckin env userCode location imageBlob submissionId w = Ok rec w' ->
  fault env (tick w') = None ->
  exists stats w'',
    getStorageStats env w' = Ok stats w''
    /\ totalCheckins stats = S (length (getAllCheckins w))
    /\ totalImages stats = S (size (images w)).
Proof.
  intros H Hf. apply storeCompleteCheckin_Ok in H.
  apply storeCompleteCheckin_try_Ok in H as (w0 & Hdb & _ & _ & Hfresh & -> & ->).
  apply ensureDB_Ok in Hdb as (Hopen & Him & Hck & _).
  unfold getStorageStats, bind, request. rewrite ensureDB_opened by exact Hopen.
  simpl in *. rewrite Hf. eexists _, _. split; [reflexivity|]. simpl.
  split.
  - erewrite getAllCheckins_written by reflexivity.
    rewrite length_app, (getAllCheckins_same w w0 Hck). simpl. lia.
  - rewrite map_size_insert_None by exact Hfresh. now rewrite Him.
Qed.

Lemma submit_then_stats_counts_one_more_witness :
  exists w'',
    getStorageStats offline one_checkin
    = Ok {| totalCheckins := 1; totalImages := 1; storageSize := "500.3 KB" |} w''.
Proof.
  destruct (submit_then_stats_counts_one_more offline "FIELD_01" new_york selfie
              "VER-ABC123" fresh _ one_checkin eq_refl eq_refl)
    as (stats & w'' & Hrun & _).
  exists w''. rewrite Hrun. vm_compute in Hrun. injection Hrun as <- _. reflexivity.
Defined.

(* ===================================================================== *)
(** * Properties of the API client *)
(* ===================================================================== *)

(** The run of [healthCheck]. *)
Lemma healthCheck_run env w :
  healthCheck env w
  = Ok (negb (request_failed (fetched env (tick w)))) (advance (note (HttpGet "/health") w)).
Proof.
  unfold healthCheck, try_catch, bind, fetch, ret.
  destruct (fetched env (tick w)) as [e|ok body]; simpl; [reflexivity|].
  now rewrite negb_involutive.
Qed.

(** X13.  [healthCheck] never throws.  It issues exactly one request,
    GET /health, and resolves to [true] when the reply is ok and to
    [false] when the reply is not ok or the request fails. *)
Theorem healthCheck_never_throws env w :
  exists b,
    healthCheck env w = Ok b (advance (note (HttpGet "/health") w))
    /\ (b = true <-> exists body, fetched env (tick w) = FetchReplies true body).
Proof.
  rewrite healthCheck_run. eexists. split; [reflexivity|].
  destruct (fetched env (tick w)) as [e|[] body]; simpl; split;
    try discriminate; try (intros [? [=]]); eauto.
Qed.

(** X14.  [submitCheckin] and [uploadImage] never throw.  Each issues
    exactly one POST and resolves to a response that succeeds, with the
    reply's body as data, exactly when the reply is ok; otherwise the
    response carries an error message: the reply's own [error] when it
    has a non-empty one, the network error's message when the request
    failed, and else the fixed default of the operation. *)
Theorem post_reports_outcome env data imageBlob checkinId w :
  submitCheckin env data w
  = Ok (reported "Submission failed" (fetched env (tick w)))
       (advance (note (HttpPost "/checkins") w))
  /\ uploadImage env imageBlob checkinId w
     = Ok (reported "Upload failed" (fetched env (tick w)))
          (advance (note (HttpPost "/upload-image") w)).
Proof.
  unfold submitCheckin, uploadImage, try_catch, bind, fetch, result_error, ret, throw.
  destruct (fetched env (tick w)) as [e|[] [| |i u m]]; simpl; split; reflexivity.
Qed.

(** X15.  [submitCompleteCheckin] never throws and sends the metadata
    before the image.  It always posts to /checkins first; it posts to
    /upload-image next only when the insert was answered ok with an
    object, and then never anything else.  It reports success unless
    the insert failed or the attempted upload failed, and it changes
    neither local store. *)
Theorem submitCompleteCheckin_sequence env checkinData imageBlob w :
  exists r w',
    submitCompleteCheckin env checkinData imageBlob w = Ok r w'
    /\ trace w' = trace w
                  ++ HttpPost "/checkins"
                     :: (if upload_attempted (fetched env (tick w))
                         then [HttpPost "/upload-image"] else [])
    /\ success r = negb (request_failed (fetched env (tick w))
                         || (upload_attempted (fetched env (tick w))
                             && request_failed (fetched env (1 + tick w))))
    /\ images w' = images w
    /\ selfie_checkins w' = selfie_checkins w.
Proof.
  unfold submitCompleteCheckin, submitCheckin, uploadImage, try_catch, bind, fetch,
    result_error, ret, throw.
  destruct (fetched env (tick w)) as [e1|[] [| |i1 u1 m1]]; simpl;
    try (eexists _, _; repeat split; reflexivity).
  destruct (fetched env (S (tick w))) as [e2|[] [| |i2 u2 m2]]; simpl;
    eexists _, _; (split; [reflexivity|]); simpl; rewrite <- ?app_assoc;
    repeat split; reflexivity.
Qed.

(** X16.  When the insert and the upload are both answered ok with an
    object, [submitCompleteCheckin] succeeds with the [id] of the
    insert's reply as [checkinId] and the [imageUrl] of the upload's
    reply as [imageUrl]. *)
Theorem submitCompleteCheckin_assembles env checkinData imageBlob w i1 u1 m1 i2 u2 m2 :
  fetched env (tick w) = FetchReplies true (JObject i1 u1 m1) ->
  fetched env (1 + tick w) = FetchReplies true (JObject i2 u2 m2) ->
  exists w',
    submitCompleteCheckin env checkinData imageBlob w
    = Ok (mkApiResponse true (Some (Assembled i1 u2)) None) w'.
Proof.
  intros H1 H2.
  unfold submitCompleteCheckin, submitCheckin, uploadImage, try_catch, bind, fetch,
    result_error, ret, throw.
  rewrite H1. simpl in *. rewrite H2. simpl. eexists. reflexivity.
Qed.

Lemma submitCompleteCheckin_assembles_witness :
  exists w',
    submitCompleteCheckin online a_submission selfie fresh
    = Ok (mkApiResponse true
            (Some (Assembled (Some "srv-42") (Some "https://cdn.example/selfie-srv-42.jpg")))
            None) w'.
Proof.
  exact (submitCompleteCheckin_assembles online a_submission selfie fresh
           _ _ _ _ _ _ eq_refl eq_refl).
Defined.

(** X17.  A failure of either step is reported as that step's failure.
    When the insert fails, [submitCompleteCheckin] reports the insert's
    message and sends no image.  When the insert succeeded and the
    upload fails, it reports the upload's message: the call fails
    although the metadata has been accepted by the backend. *)
Theorem submitCompleteCheckin_reports_failing_step env checkinData imageBlob w :
  (request_failed (fetched env (tick w)) = true ->
   submitCompleteCheckin env checkinData imageBlob w
   = Ok (mkApiResponse false None
           (Some (failure_message "Submission failed" (fetched env (tick w)))))
        (advance (note (HttpPost "/checkins") w)))
  /\ (upload_attempted (fetched env (tick w)) = true ->
      request_failed (fetched env (1 + tick w)) = true ->
      submitCompleteCheckin env checkinData imageBlob w
      = Ok (mkApiResponse false None
              (Some (failure_message "Upload failed" (fetched env (1 + tick w)))))
           (advance (note (HttpPost "/upload-image")
                       (advance (note (HttpPost "/checkins") w))))).
Proof.
  unfold submitCompleteCheckin, submitCheckin, uploadImage, try_catch, bind, fetch,
    result_error, ret, throw.
  destruct (fetched env (tick w)) as [e1|[] [| |i1 u1 m1]]; simpl;
    (split; [intros H; try discriminate H; try reflexivity|]);
    intros Hup; try discriminate Hup.
  destruct (fetched env (S (tick w))) as [e2|[] [| |i2 u2 m2]]; simpl;
    intros H; try discriminate H; reflexivity.
Qed.

Lemma submitCompleteCheckin_reports_failing_step_witness :
  submitCompleteCheckin offline a_submission selfie fresh
  = Ok (mkApiResponse false None (Some "Failed to fetch"))
       (advance (note (HttpPost "/checkins") fresh))
  /\ submitCompleteCheckin upload_refused a_submission selfie fresh
     = Ok (mkApiResponse false None (Some "File too large"))
          (advance (note (HttpPost "/upload-image")
                      (advance (note (HttpPost "/checkins") fresh)))).
Proof.
  split.
  - exact (proj1 (submitCompleteCheckin_reports_failing_step offline a_submission selfie
                    fresh) eq_refl).
  - exact (proj2 (submitCompleteCheckin_reports_failing_step upload_refused a_submission
                    selfie fresh) eq_refl eq_refl).
Defined.

(* ===================================================================== *)
(** * Further properties of the sync orchestrator *)
(* ===================================================================== *)

(** Whatever its outcome, [storeCompleteCheckin] issues local requests
    only. *)
Lemma storeCompleteCheckin_requests_are_local
    env userCode location imageBlob submissionId w :
  exists local,
    trace (world_of (storeCompleteCheckin env userCode location imageBlob submissionId w))
    = trace w ++ local
    /\ all_local local = true.
Proof.
  rewrite storeCompleteCheckin_world.
  unfold storeCompleteCheckin_try, storeImage, storeCheckin, idb_add, ensureDB, initDB,
    request, Date_now, Math_random36, bind, ret.
  destruct (db w) eqn:Hdb; split_run env; simpl;
    first [ exists []; split; [now rewrite app_nil_r | reflexivity]
          | eexists; split; [rewrite <- ?app_assoc; reflexivity | reflexivity] ].
Qed.

(** X18.  When the local commit fails, [storeCheckinWithSync] throws
    the fixed error "Failed to store checkin locally" and the backend
    is never contacted: every request of the run was a local one. *)
Theorem storeCheckinWithSync_needs_local_commit
    env userCode location imageBlob submissionId w e w1 :
  storeCompleteCheckin env userCode location imageBlob submissionId w = Err e w1 ->
  storeCheckinWithSync env userCode location imageBlob submissionId w
  = Err (new_Error "Failed to store checkin locally") w1
  /\ exists local, trace w1 = trace w ++ local /\ all_local local = true.
Proof.
  intros H. split.
  - unfold storeCheckinWithSync, try_catch, bind. now rewrite H.
  - pose proof (storeCompleteCheckin_requests_are_local env userCode location imageBlob
                  submissionId w) as Hlocal.
    now rewrite H in Hlocal.
Qed.

Lemma storeCheckinWithSync_needs_local_commit_witness :
  exists w1,
    storeCheckinWithSync disk_full "FIELD_01" new_york selfie "VER-ABC123" fresh
    = Err (new_Error "Failed to store checkin locally") w1
    /\ trace w1 = [IdbOpen; IdbAdd "img_1700000000001_4fzyo82mv"].
Proof.
  eexists. split.
  - exact (proj1 (storeCheckinWithSync_needs_local_commit disk_full "FIELD_01" new_york
                    selfie "VER-ABC123" fresh (new_Error "Failed to store check-in data")
                    (world_of (storeCompleteCheckin disk_full "FIELD_01" new_york selfie
                                 "VER-ABC123" fresh))
                    eq_refl)).
  - reflexivity.
Defined.

(** X19.  When the health check fails after the local commit,
    [storeCheckinWithSync] attempts no submission: GET /health is its
    only remote request, and it resolves to the local id with
    [synced = false] and the error "Server not available". *)
Theorem storeCheckinWithSync_unreachable
    env userCode location imageBlob submissionId w rec w1 :
  storeCompleteCheckin env userCode location imageBlob submissionId w = Ok rec w1 ->
  request_failed (fetched env (tick w1)) = true ->
  storeCheckinWithSync env userCode location imageBlob submissionId w
  = Ok {| localId := ck_id rec; synced := false;
          sync_error := Some "Server not available" |}
       (advance (note (HttpGet "/health") w1)).
Proof.
  intros H Hdown.
  unfold storeCheckinWithSync, try_catch, bind. rewrite H.
  rewrite healthCheck_run, Hdown. reflexivity.
Qed.

Lemma storeCheckinWithSync_unreachable_witness :
  storeCheckinWithSync offline "FIELD_01" new_york selfie "VER-ABC123" fresh
  = Ok {| localId := "checkin_1700000000006_4fzyo82mv"; synced := false;
          sync_error := Some "Server not available" |}
       (advance (note (HttpGet "/health") one_checkin)).
Proof.
  exact (storeCheckinWithSync_unreachable offline "FIELD_01" new_york selfie "VER-ABC123"
           fresh _ one_checkin eq_refl eq_refl).
Defined.

(** X20.  After the local commit, [storeCheckinWithSync] reports
    [synced = true], without an error, whenever there is no remote
    failure: the backend is reachable, the insert is answered ok, and
    the upload, if it is attempted, is answered ok. *)
Theorem storeCheckinWithSync_synced
    env userCode location imageBlob submissionId w rec w1 :
  storeCompleteCheckin env userCode location imageBlob submissionId w = Ok rec w1 ->
  remote_failure env w1 = false ->
  exists w2,
    storeCheckinWithSync env userCode location imageBlob submissionId w
    = Ok {| localId := ck_id rec; synced := true; sync_error := None |} w2
    /\ trace w2 = trace w1
                  ++ HttpGet "/health" :: HttpPost "/checkins"
                     :: (if upload_attempted (fetched env (2 + tick w1))
                         then [HttpPost "/upload-image"] else []).
Proof.
  intros H.
  unfold storeCheckinWithSync, try_catch, bind. rewrite H.
  unfold remote_failure, healthCheck, submitCompleteCheckin, submitCheckin, uploadImage,
    fetch, result_error, Date_now, try_catch, bind, ret, throw.
  simpl.
  destruct (fetched env (tick w1)) as [e0|[] j0]; simpl; try discriminate.
  destruct (fetched env (S (S (tick w1)))) as [e1|[] [| |i1 u1 m1]]; simpl;
    try discriminate;
    try (intros _; eexists; split; [reflexivity|]; simpl; rewrite <- ?app_assoc;
         reflexivity).
  destruct (fetched env (S (S (S (tick w1))))) as [e2|[] [| |i2 u2 m2]]; simpl;
    try discriminate;
    intros _; eexists; (split; [reflexivity|]); simpl; rewrite <- ?app_assoc; reflexivity.
Qed.

Lemma storeCheckinWithSync_synced_witness :
  exists w2,
    storeCheckinWithSync online "FIELD_01" new_york selfie "VER-ABC123" fresh
    = Ok {| localId := "checkin_1700000000006_4fzyo82mv"; synced := true;
            sync_error := None |} w2
    /\ trace w2 = [IdbOpen; IdbAdd "img_1700000000001_4fzyo82mv"; LsSetItem;
                   HttpGet "/health"; HttpPost "/checkins"; HttpPost "/upload-image"].
Proof.
  exact (storeCheckinWithSync_synced online "FIELD_01" new_york selfie "VER-ABC123"
           fresh _ one_checkin eq_refl eq_refl).
Defined.

(** X21.  A submission can be reported as synced although its image
    never left the device.  When the backend is reachable and answers
    the insert ok with an empty body ([null] or another falsy value),
    [storeCheckinWithSync] makes no upload request and still resolves
    to [synced = true]. *)
Theorem storeCheckinWithSync_synced_without_upload
    env userCode location imageBlob submissionId w rec w1 body :
  storeCompleteCheckin env userCode location imageBlob submissionId w = Ok rec w1 ->
  request_failed (fetched env (tick w1)) = false ->
  fetched env (2 + tick w1) = FetchReplies true body ->
  falsy (Some body) = true ->
  exists w2,
    storeCheckinWithSync env userCode location imageBlob submissionId w
    = Ok {| localId := ck_id rec; synced := true; sync_error := None |} w2
    /\ trace w2 = trace w1 ++ [HttpGet "/health"; HttpPost "/checkins"].
Proof.
  intros H Hup Hinsert Hfalsy.
  unfold storeCheckinWithSync, try_catch, bind. rewrite H.
  rewrite healthCheck_run, Hup. simpl.
  unfold submitCompleteCheckin, submitCheckin, fetch, result_error, Date_now, try_catch,
    bind, ret, throw.
  simpl in *. rewrite Hinsert. simpl.
  destruct body as [| |i u m]; [| |discriminate Hfalsy]; simpl;
    eexists; (split; [reflexivity|]); simpl; now rewrite <- app_assoc.
Qed.

Lemma storeCheckinWithSync_synced_without_upload_witness :
  exists w2,
    storeCheckinWithSync empty_reply "FIELD_01" new_york selfie "VER-ABC123" fresh
    = Ok {| localId := "checkin_1700000000006_4fzyo82mv"; synced := true;
            sync_error := None |} w2
    /\ trace w2 = [IdbOpen; IdbAdd "img_1700000000001_4fzyo82mv"; LsSetItem;
                   HttpGet "/health"; HttpPost "/checkins"].
Proof.
  exact (storeCheckinWithSync_synced_without_upload empty_reply "FIELD_01" new_york selfie
           "VER-ABC123" fresh _ one_checkin JNull eq_refl eq_refl eq_refl eq_refl).
Defined.

(* ===================================================================== *)
(** * Further properties of the remote statistics *)
(* ===================================================================== *)

Lemma length_remove_dups_le (codes : list string) :
  (length (remove_dups codes) <= length codes)%nat.
Proof.
  induction codes as [|c rest IH]; simpl; [lia|].
  destruct (decide_rel elem_of c rest); simpl; lia.
Qed.

(** A weaker test selects at least as many elements. *)
Lemma length_filter_mono {A} (f g : A -> bool) (l : list A) :
  (forall x, f x = true -> g x = true) ->
  (length (List.filter f l) <= length (List.filter g l))%nat.
Proof.
  intros Himp. induction l as [|x l IH]; [reflexivity|].
  simpl. destruct (f x) eqn:Hf.
  - rewrite (Himp x Hf). simpl. lia.
  - destruct (g x); simpl; lia.
Qed.

(** X22.  The statistics of the Firebase adapter are consistent in
    every run, failed queries included: [getStats] resolves, and its
    unique users, today's check-ins and this week's check-ins never
    exceed the total; there are no unique users exactly when there are
    no check-ins. *)
Theorem Firebase_getStats_bounds env w :
  exists stats w',
    Firebase.getStats env w = Ok stats w'
    /\ (rs_uniqueUsers stats <= rs_totalCheckins stats)%nat
    /\ (rs_todayCheckins stats <= rs_totalCheckins stats)%nat
    /\ (rs_thisWeekCheckins stats <= rs_totalCheckins stats)%nat
    /\ (rs_uniqueUsers stats = 0%nat <-> rs_totalCheckins stats = 0%nat).
Proof.
  destruct (firestore env (tick w)) as [e|docs] eqn:Hq.
  - exists zero_stats. eexists. split.
    + unfold Firebase.getStats, Firebase.getAllCheckins, Firebase.getDocs, try_catch, bind,
        throw, ret.
      rewrite Hq. reflexivity.
    + simpl. repeat split; auto.
  - rewrite (Firebase_getStats_run env w docs Hq). eexists _, _. split; [reflexivity|].
    simpl. rewrite distinct_remove_dups.
    split; [rewrite <- (length_fmap fb_userCode docs); apply length_remove_dups_le|].
    split; [apply List.filter_length_le|]. split; [apply List.filter_length_le|].
    destruct docs as [|d rest]; [simpl; tauto|].
    simpl. split; [|discriminate].
    destruct (decide_rel _ _ _) as [Hin|Hnin];
      [|simpl; intros Hzero; discriminate Hzero].
    intros Hzero. exfalso. apply length_zero_iff_nil in Hzero.
    apply elem_of_remove_dups in Hin.
    rewrite Hzero in Hin. now apply not_elem_of_nil in Hin.
Qed.

(** X23.  Whoever checked in today checked in this week: every
    document counted in [todayCheckins] is counted in
    [thisWeekCheckins] too, provided the time zone and the clock are
    as one expects: the local midnight that began today lies less
    than two days before the first clock read, seven calendar days
    before the second read is at least six days before it, and the
    two reads are at most four days apart. *)
Theorem Firebase_today_within_week env w docs :
  firestore env (tick w) = GetDocsReturns docs ->
  clock env (1 + tick w) - 2 * msPerDay < startOfLocalDay env (clock env (1 + tick w)) ->
  sevenDaysEarlier env (clock env (2 + tick w)) <= clock env (2 + tick w) - 6 * msPerDay ->
  clock env (2 + tick w) <= clock env (1 + tick w) + 4 * msPerDay ->
  exists stats w',
    Firebase.getStats env w = Ok stats w'
    /\ (rs_todayCheckins stats <= rs_thisWeekCheckins stats)%nat.
Proof.
  intros Hq Hmidnight Hweek Hclock. rewrite (Firebase_getStats_run env w docs Hq).
  eexists _, _. split; [reflexivity|]. simpl.
  apply length_filter_mono. intros c.
  destruct (new_Date (fb_timestamp c)) as [t|]; simpl; [|discriminate].
  intros Htoday. apply Z.leb_le in Htoday. apply Z.leb_le.
  simpl in Hmidnight, Hweek, Hclock.
  assert (Hms : msPerDay = 86400000) by reflexivity.
  lia.
Qed.

Lemma Firebase_today_within_week_witness :
  exists w',
    Firebase.getStats offline fresh
    = Ok {| rs_totalCheckins := 3; rs_uniqueUsers := 2;
            rs_todayCheckins := 1; rs_thisWeekCheckins := 2 |} w'.
Proof.
  assert (Hmidnight : clock offline (1 + tick fresh) - 2 * msPerDay
                      < startOfLocalDay offline (clock offline (1 + tick fresh)))
    by reflexivity.
  assert (Hweek : sevenDaysEarlier offline (clock offline (2 + tick fresh))
                  <= clock offline (2 + tick fresh) - 6 * msPerDay)
    by (vm_compute; discriminate).
  assert (Hclock : clock offline (2 + tick fresh)
                   <= clock offline (1 + tick fresh) + 4 * msPerDay)
    by (vm_compute; discriminate).
  destruct (Firebase_today_within_week offline fresh three_docs eq_refl
              Hmidnight Hweek Hclock)
    as (stats & w' & Hrun & _).
  exists w'. rewrite Hrun. vm_compute in Hrun. injection Hrun as <- _. reflexivity.
Defined.

(** Counting rows that all have their [created_at]. *)
Lemma count_created_all_present p rows w :
  Forall (fun c => sb_created_at c <> None) rows ->
  Supabase.count_created p rows w = Ok (rows_where p rows) w.
Proof.
  unfold rows_where.
  induction 1 as [|c rest Hc _ IH]; [reflexivity|].
  simpl. destruct (sb_created_at c) as [created_at|]; [|contradiction].
  unfold bind, ret. rewrite IH. now destruct (p created_at).
Qed.

(** Counting rows one of which lacks its [created_at]. *)
Lemma count_created_gap p rows w :
  Exists (fun c => sb_created_at c = None) rows ->
  exists e, Supabase.count_created p rows w = Err e w.
Proof.
  induction 1 as [c rest Hc|c rest _ IH]; simpl.
  - rewrite Hc. eexists. reflexivity.
  - destruct (sb_created_at c); [|eexists; reflexivity].
    unfold bind. destruct IH as [e ->]. eexists. reflexivity.
Qed.

(** X24.  When the Supabase query returns rows that all have their
    [created_at], [getStats] reports the number of rows, the number of
    distinct user codes, the number of rows whose [created_at] begins
    with the date part of the current time in ISO form (the UTC date),
    and the number of rows whose [created_at] is, as a string, at or
    after the ISO form of the time seven days ago. *)
Theorem Supabase_getStats_counts env w rows :
  supabase env (tick w) = mkSupabaseOutcome (Some rows) None ->
  Forall (fun c => sb_created_at c <> None) rows ->
  Supabase.getStats env w =
    Ok {| rs_totalCheckins := length rows;
          rs_uniqueUsers := length (remove_dups (sb_user_code <$> rows));
          rs_todayCheckins :=
            rows_where (String.prefix
                          (Supabase.split_T_0 (toISOString env (clock env (1 + tick w)))))
                       rows;
          rs_thisWeekCheckins :=
            rows_where (String.leb
                          (toISOString env (clock env (2 + tick w) - 7 * msPerDay)))
                       rows |}
       (advance (advance (advance (note SupabaseSelect w)))).
Proof.
  intros Hq Hall.
  unfold Supabase.getStats, Supabase.select, try_catch, bind, Date_now, ret.
  rewrite Hq. simpl.
  rewrite !(count_created_all_present _ rows _ Hall).
  now rewrite distinct_remove_dups.
Qed.

Lemma two_rows_present : Forall (fun c => sb_created_at c <> None) two_rows.
Proof. repeat constructor; discriminate. Defined.

Lemma Supabase_getStats_counts_witness :
  exists w',
    Supabase.getStats (with_rows two_rows) fresh
    = Ok {| rs_totalCheckins := 2; rs_uniqueUsers := 1;
            rs_todayCheckins := 1; rs_thisWeekCheckins := 1 |} w'.
Proof.
  eexists.
  rewrite (Supabase_getStats_counts (with_rows two_rows) fresh two_rows eq_refl
             two_rows_present).
  reflexivity.
Defined.

(** X25.  One incomplete row blanks the whole dashboard.  When the
    Supabase query succeeds but some row has no [created_at], or the
    query returns no data at all, [getStats] resolves to all-zero
    statistics, however many rows there are. *)
Theorem Supabase_getStats_gap_gives_zero env w :
  (forall rows,
     supabase env (tick w) = mkSupabaseOutcome (Some rows) None ->
     Exists (fun c => sb_created_at c = None) rows ->
     Supabase.getStats env w = Ok zero_stats (advance (advance (advance (note SupabaseSelect w)))))
  /\ (supabase env (tick w) = mkSupabaseOutcome None None ->
      Supabase.getStats env w = Ok zero_stats (advance (advance (advance (note SupabaseSelect w))))).
Proof.
  split.
  - intros rows Hq Hgap.
    unfold Supabase.getStats, Supabase.select, try_catch, bind, Date_now, ret.
    rewrite Hq. simpl.
    match goal with
    | |- context [Supabase.count_created ?p rows ?w1] =>
        destruct (count_created_gap p rows w1 Hgap) as [e ->]
    end.
    reflexivity.
  - intros Hq.
    unfold Supabase.getStats, Supabase.select, try_catch, bind, Date_now, ret, throw.
    rewrite Hq. reflexivity.
Qed.

Lemma rows_with_gap_has_gap : Exists (fun c => sb_created_at c = None) rows_with_gap.
Proof. apply Exists_app. right. now left. Defined.

Lemma Supabase_getStats_gap_gives_zero_witness :
  length rows_with_gap = 3%nat
  /\ Supabase.getStats (with_rows rows_with_gap) fresh
     = Ok zero_stats (advance (advance (advance (note SupabaseSelect fresh)))).
Proof.
  split; [reflexivity|].
  exact (proj1 (Supabase_getStats_gap_gives_zero (with_rows rows_with_gap) fresh)
           rows_with_gap eq_refl rows_with_gap_has_gap).
Defined.

(** X26.  [split_T_0] cuts a string at its first letter T: applied to a
    text without that letter followed by T and anything, it returns the
    text; its result contains no T, so applying it again changes
    nothing. *)
Theorem split_T_0_cuts_at_first_T date rest :
  Supabase.split_T_0 date = date ->
  Supabase.split_T_0 (date +:+ String Supabase.letter_T rest) = date
  /\ Supabase.split_T_0 (Supabase.split_T_0 rest) = Supabase.split_T_0 rest.
Proof.
  intros Hdate. split.
  - revert Hdate. induction date as [|a date IH].
    + intros _. change (String.app "" (String Supabase.letter_T rest))
        with (String Supabase.letter_T rest).
      cbn [Supabase.split_T_0]. now rewrite Ascii.eqb_refl.
    + simpl. destruct (Ascii.eqb a Supabase.letter_T); [discriminate|].
      intros [= Hdate]. now rewrite IH.
  - induction rest as [|a rest IH]; simpl; [reflexivity|].
    destruct (Ascii.eqb a Supabase.letter_T) eqn:Ha; simpl; [reflexivity|].
    now rewrite Ha, IH.
Qed.

Lemma split_T_0_cuts_at_first_T_witness :
  Supabase.split_T_0 "2023-11-14T22:13:20.000Z" = "2023-11-14".
Proof.
  exact (proj1 (split_T_0_cuts_at_first_T "2023-11-14" "22:13:20.000Z" eq_refl)).
Defined.

(* ===================================================================== *)
(** * Properties of the writes to the remote stores *)
(* ===================================================================== *)

(** X27.  Every failure of the Firebase [storeCompleteCheckin] is
    thrown as an [Error] whose message is "Firebase storage failed: "
    followed by the message of the call that failed.  The calls are
    made in the order upload, download URL, add document, and stop at
    the failing one: a failed upload adds no document; a failure after
    the upload leaves the uploaded image behind without a document. *)
Theorem FirebaseStore_failure backend userCode location imageBlob submissionId s e s' :
  FirebaseStore.storeCompleteCheckin backend userCode location imageBlob submissionId s
  = Cloud.Throws e s' ->
  let path := "selfies/" +:+ submissionId +:+ ".jpg" in
  let upload := Cloud.UploadBytes path imageBlob userCode submissionId
                  (Cloud.iso backend (Cloud.now backend (Cloud.at_tick s))) in
  exists cause,
    e = new_Error ("Firebase storage failed: " +:+ err_message_of cause)
    /\ ((Cloud.uploaded backend (1 + Cloud.at_tick s) = Cloud.Rejected cause
         /\ Cloud.calls s' = Cloud.calls s ++ [upload])
        \/ (Cloud.downloadURL backend (2 + Cloud.at_tick s) = Cloud.Rejected cause
            /\ Cloud.calls s' = Cloud.calls s ++ [upload; Cloud.GetDownloadURL path])
        \/ (Cloud.addedDoc backend (5 + Cloud.at_tick s) = Cloud.Rejected cause
            /\ exists doc,
                 Cloud.calls s' = Cloud.calls s
                                  ++ [upload; Cloud.GetDownloadURL path;
                                      Cloud.AddDoc "checkins" doc])).
Proof.
  unfold FirebaseStore.storeCompleteCheckin, Cloud.rtry, Cloud.rbind, Cloud.await,
    Cloud.Date_now, Cloud.rret, Cloud.rthrow.
  simpl.
  destruct (Cloud.uploaded backend (S (Cloud.at_tick s))) as [[]|c1] eqn:H1; simpl.
  2:{ intros [= <- <-]. exists c1. split; [reflexivity|]. left. auto. }
  destruct (Cloud.downloadURL backend (S (S (Cloud.at_tick s)))) as [url|c2] eqn:H2; simpl.
  2:{ intros [= <- <-]. exists c2. split; [reflexivity|]. right. left.
      split; [reflexivity|]. simpl. now rewrite <- app_assoc. }
  destruct (Cloud.addedDoc backend (S (S (S (S (S (Cloud.at_tick s)))))))
    as [docId|c3] eqn:H3; simpl; [discriminate|].
  intros [= <- <-]. exists c3. split; [reflexivity|]. right. right.
  split; [reflexivity|]. eexists. simpl. rewrite <- !app_assoc. reflexivity.
Qed.

Lemma FirebaseStore_failure_witness :
  exists s',
    FirebaseStore.storeCompleteCheckin records_refused "FIELD_01" new_york selfie
      "VER-ABC123" cloud_start
    = Cloud.Throws
        (new_Error "Firebase storage failed: Missing or insufficient permissions.") s'
    /\ length (Cloud.calls s') = 3%nat.
Proof.
  eexists. split; [vm_compute; reflexivity|].
  destruct (FirebaseStore_failure records_refused "FIELD_01" new_york selfie "VER-ABC123"
              cloud_start _ _ eq_refl) as (cause & _ & _).
  reflexivity.
Defined.

(** X28.  When the Firebase [storeCompleteCheckin] succeeds, it has
    uploaded the blob under the path "selfies/<submissionId>.jpg",
    asked for the download URL of that path and added one document;
    the record it returns is that document with the id of the new
    document: user code, submission id and coordinates as given, the
    download URL as image URL. *)
Theorem FirebaseStore_success backend userCode location imageBlob submissionId s r s' :
  FirebaseStore.storeCompleteCheckin backend userCode location imageBlob submissionId s
  = Cloud.Returns r s' ->
  let path := "selfies/" +:+ submissionId +:+ ".jpg" in
  Cloud.calls s' = Cloud.calls s
                   ++ [Cloud.UploadBytes path imageBlob userCode submissionId
                         (Cloud.iso backend (Cloud.now backend (Cloud.at_tick s)));
                       Cloud.GetDownloadURL path;
                       Cloud.AddDoc "checkins" (Cloud.fs_data r)]
  /\ Cloud.addedDoc backend (5 + Cloud.at_tick s) = Cloud.Fulfilled (Cloud.fs_id r)
  /\ Cloud.downloadURL backend (2 + Cloud.at_tick s)
     = Cloud.Fulfilled (Cloud.fd_imageUrl (Cloud.fs_data r))
  /\ Cloud.fd_userCode (Cloud.fs_data r) = userCode
  /\ Cloud.fd_submissionId (Cloud.fs_data r) = submissionId
  /\ Cloud.fd_latitude (Cloud.fs_data r) = latitude location
  /\ Cloud.fd_longitude (Cloud.fs_data r) = longitude location
  /\ Cloud.fd_accuracy (Cloud.fs_data r) = accuracy location
  /\ Cloud.fd_timestamp (Cloud.fs_data r) = Cloud.now backend (3 + Cloud.at_tick s).
Proof.
  unfold FirebaseStore.storeCompleteCheckin, Cloud.rtry, Cloud.rbind, Cloud.await,
    Cloud.Date_now, Cloud.rret, Cloud.rthrow.
  simpl.
  destruct (Cloud.uploaded backend (S (Cloud.at_tick s))) as [[]|c1]; simpl;
    [|discriminate].
  destruct (Cloud.downloadURL backend (S (S (Cloud.at_tick s)))) as [url|c2]; simpl;
    [|discriminate].
  destruct (Cloud.addedDoc backend (S (S (S (S (S (Cloud.at_tick s)))))))
    as [docId|c3]; simpl; [|discriminate].
  intros [= <- <-]. simpl. rewrite <- !app_assoc. repeat split; reflexivity.
Qed.

Lemma FirebaseStore_success_witness :
  exists r s',
    FirebaseStore.storeCompleteCheckin healthy_backend "FIELD_01" new_york selfie
      "VER-ABC123" cloud_start
    = Cloud.Returns r s'
    /\ Cloud.fs_id r = "doc-1"
    /\ Cloud.fd_imageUrl (Cloud.fs_data r) = "https://firebasestorage.example/o/VER-ABC123"
    /\ Cloud.fd_userCode (Cloud.fs_data r) = "FIELD_01".
Proof.
  eexists _, _. split; [vm_compute; reflexivity|].
  destruct (FirebaseStore_success healthy_backend "FIELD_01" new_york selfie "VER-ABC123"
              cloud_start _ _ eq_refl) as (_ & _ & _ & Hu & _).
  split; [reflexivity|]. split; [reflexivity | exact Hu].
Defined.

(** X29.  The Supabase [storeCompleteCheckin] fails in two ways only.
    When the upload returns an error, it throws "Image upload failed: "
    followed by that error's message and inserts no row.  When the
    upload went through and the insert returns an error, it throws
    "Database insert failed: " followed by that error's message: the
    image has been uploaded and no row refers to it. *)
Theorem SupabaseStore_failure backend userCode location imageBlob submissionId s e s' :
  SupabaseStore.storeCompleteCheckin backend userCode location imageBlob submissionId s
  = Cloud.Throws e s' ->
  let file := submissionId +:+ ".jpg" in
  let upload := Cloud.StorageUpload "selfies" file imageBlob true in
  (exists cause,
     Cloud.uploadError backend (Cloud.at_tick s) = Some cause
     /\ e = new_Error ("Image upload failed: " +:+ err_message_of cause)
     /\ Cloud.calls s' = Cloud.calls s ++ [upload])
  \/ (exists cause row,
        Cloud.uploadError backend (Cloud.at_tick s) = None
        /\ Cloud.ins_error (Cloud.inserted backend (1 + Cloud.at_tick s)) = Some cause
        /\ e = new_Error ("Database insert failed: " +:+ err_message_of cause)
        /\ Cloud.calls s' = Cloud.calls s ++ [upload; Cloud.TableInsert "checkins" row]).
Proof.
  unfold SupabaseStore.storeCompleteCheckin, SupabaseStore.upload, SupabaseStore.insert,
    Cloud.rtry, Cloud.rbind, Cloud.rret, Cloud.rthrow.
  simpl.
  destruct (Cloud.uploadError backend (Cloud.at_tick s)) as [c1|] eqn:H1; simpl.
  - intros [= <- <-]. left. exists c1. auto.
  - destruct (Cloud.ins_error (Cloud.inserted backend (S (Cloud.at_tick s))))
      as [c2|] eqn:H2; simpl; [|discriminate].
    intros [= <- <-]. right. eexists c2, _.
    split; [reflexivity|]. split; [reflexivity|]. split; [reflexivity|].
    simpl. now rewrite <- app_assoc.
Qed.

Lemma SupabaseStore_failure_witness :
  exists s',
    SupabaseStore.storeCompleteCheckin records_refused "FIELD_01" new_york selfie
      "VER-ABC123" cloud_start
    = Cloud.Throws
        (new_Error "Database insert failed: new row violates row-level security policy") s'
    /\ length (Cloud.calls s') = 2%nat.
Proof.
  eexists. split; [vm_compute; reflexivity|].
  destruct (SupabaseStore_failure records_refused "FIELD_01" new_york selfie "VER-ABC123"
              cloud_start _ _ eq_refl) as [(cause & _)|(cause & row & _)]; reflexivity.
Defined.

(** X30.  When the Supabase [storeCompleteCheckin] succeeds, it has
    uploaded the blob, with overwriting allowed, as the file
    "<submissionId>.jpg" of the bucket "selfies" and then inserted one
    row that carries the user code, submission id and coordinates as
    given and the public URL of that file; what it returns is the row
    as the table answered it. *)
Theorem SupabaseStore_success backend userCode location imageBlob submissionId s r s' :
  SupabaseStore.storeCompleteCheckin backend userCode location imageBlob submissionId s
  = Cloud.Returns r s' ->
  let file := submissionId +:+ ".jpg" in
  Cloud.calls s' = Cloud.calls s
                   ++ [Cloud.StorageUpload "selfies" file imageBlob true;
                       Cloud.TableInsert "checkins"
                         (Cloud.mkSupabaseInsert userCode submissionId
                            (latitude location) (longitude location) (accuracy location)
                            (Cloud.publicUrl backend file))]
  /\ r = Cloud.ins_data (Cloud.inserted backend (1 + Cloud.at_tick s))
  /\ Cloud.uploadError backend (Cloud.at_tick s) = None
  /\ Cloud.ins_error (Cloud.inserted backend (1 + Cloud.at_tick s)) = None.
Proof.
  unfold SupabaseStore.storeCompleteCheckin, SupabaseStore.upload, SupabaseStore.insert,
    Cloud.rtry, Cloud.rbind, Cloud.rret, Cloud.rthrow.
  simpl.
  destruct (Cloud.uploadError backend (Cloud.at_tick s)) as [c1|]; simpl; [discriminate|].
  destruct (Cloud.ins_error (Cloud.inserted backend (S (Cloud.at_tick s))))
    as [c2|] eqn:H2; simpl; [discriminate|].
  intros [= <- <-]. simpl. rewrite <- app_assoc. repeat split; reflexivity.
Qed.

Lemma SupabaseStore_success_witness :
  exists r s',
    SupabaseStore.storeCompleteCheckin healthy_backend "FIELD_01" new_york selfie
      "VER-ABC123" cloud_start
    = Cloud.Returns (Some r) s'
    /\ Cloud.sc_id r = Some "row-1"
    /\ Cloud.calls s'
       = [Cloud.StorageUpload "selfies" "VER-ABC123.jpg" selfie true;
          Cloud.TableInsert "checkins"
            (Cloud.mkSupabaseInsert "FIELD_01" "VER-ABC123" (407128 # 10000)
               (-740060 # 10000) (5 # 1)
               "https://supabase.example/selfies/VER-ABC123.jpg")].
Proof.
  eexists _, _. split; [vm_compute; reflexivity|]. split; [reflexivity|].
  exact (proj1 (SupabaseStore_success healthy_backend "FIELD_01" new_york selfie
                  "VER-ABC123" cloud_start _ _ eq_refl)).
Defined.
